(** * BMP390 calibration parsing and compensation engine

    A shallow embedding of the BMP390 simulator (corrected version), of the
    older datasheet simulator and of the reverse calculator.  C [double]
    values are IEEE 754 binary64 numbers, modelled by Rocq's primitive floats
    (round to nearest, ties to even; all NaNs are one value, so [x = nan]
    reads "x is a NaN"); C fixed-width integers are [Z] with the conversions
    written out.  A structure passed by pointer is passed as a value and
    returned with the result. *)

From Stdlib Require Import ZArith Floats Lia List Bool.
From Stdlib.Strings Require Import Byte.
From Stdlib Require Ascii.
Import ListNotations.

#[local] Set Warnings "-inexact-float".
Local Open Scope Z_scope.

(** ** C integer conversions *)

Module CInt.

(** Conversion to [uint8_t], [uint16_t] and [uint32_t]: reduction modulo 2^w. *)
Definition to_uint8 (z : Z) : Z := z mod 256.
Definition to_uint16 (z : Z) : Z := z mod 65536.
Definition to_uint32 (z : Z) : Z := z mod 4294967296.

(** Conversion to [int8_t] and [int16_t]: two's complement wrap-around. *)
Definition to_int8 (z : Z) : Z := (z + 128) mod 256 - 128.
Definition to_int16 (z : Z) : Z := (z + 32768) mod 65536 - 32768.

(** The value of the [w]-bit pattern [z] read as a two's complement number. *)
Definition signed (w : Z) (z : Z) : Z := if z <? 2 ^ (w - 1) then z else z - 2 ^ w.

End CInt.

(** ** C doubles *)

Module Double.

(** [(double)z] for an integer [z] of at most 63 bits (every integer type
    of the program is narrower): the conversion is exact up to 2^53 and
    rounds to nearest beyond. *)
Definition of_int (z : Z) : float :=
  if z <? 0 then PrimFloat.opp (PrimFloat.of_uint63 (Uint63Axioms.of_Z (- z)))
  else PrimFloat.of_uint63 (Uint63Axioms.of_Z z).

(** [fabs] of <math.h>. *)
Definition fabs (x : float) : float := PrimFloat.abs x.

(** The power of two [2^k] as a double. *)
Definition pow2 (k : Z) : float := Z.ldexp 1%float k.

(** A double that is neither a NaN nor an infinity. *)
Definition finite (x : float) : bool :=
  negb (PrimFloat.is_nan x) && negb (PrimFloat.is_infinity x).

End Double.

(** ** Data model *)

(** The 14 integers held by the NVM registers 0x31..0x45, as the locals of
    [bmp390_parse_calib_data] type them. *)
Record nvm_fields : Set := {
  raw_par_t1 : Z;  (* uint16_t *)
  raw_par_t2 : Z;  (* uint16_t *)
  raw_par_t3 : Z;  (* int8_t *)
  raw_par_p1 : Z;  (* int16_t *)
  raw_par_p2 : Z;  (* int16_t *)
  raw_par_p3 : Z;  (* int8_t *)
  raw_par_p4 : Z;  (* int8_t *)
  raw_par_p5 : Z;  (* uint16_t *)
  raw_par_p6 : Z;  (* uint16_t *)
  raw_par_p7 : Z;  (* int8_t *)
  raw_par_p8 : Z;  (* int8_t *)
  raw_par_p9 : Z;  (* int16_t *)
  raw_par_p10 : Z; (* int8_t *)
  raw_par_p11 : Z  (* int8_t *)
}.

(** [bmp390_calib_data] of the corrected simulator and of the reverse
    calculator: the quantized coefficients and the slot [t_lin]. *)
Record bmp390_calib_data : Set := {
  par_t1 : float;
  par_t2 : float;
  par_t3 : float;
  par_p1 : float;
  par_p2 : float;
  par_p3 : float;
  par_p4 : float;
  par_p5 : float;
  par_p6 : float;
  par_p7 : float;
  par_p8 : float;
  par_p9 : float;
  par_p10 : float;
  par_p11 : float;
  t_lin : float
}.

(** The assignment [calib->t_lin = v]. *)
Definition set_t_lin (v : float) (c : bmp390_calib_data) : bmp390_calib_data :=
  {| par_t1 := par_t1 c; par_t2 := par_t2 c; par_t3 := par_t3 c;
     par_p1 := par_p1 c; par_p2 := par_p2 c; par_p3 := par_p3 c;
     par_p4 := par_p4 c; par_p5 := par_p5 c; par_p6 := par_p6 c;
     par_p7 := par_p7 c; par_p8 := par_p8 c; par_p9 := par_p9 c;
     par_p10 := par_p10 c; par_p11 := par_p11 c; t_lin := v |}.

(** Two structures agree on the 14 coefficients (they may differ on [t_lin]). *)
Definition same_coefficients (c d : bmp390_calib_data) : Prop :=
  par_t1 c = par_t1 d /\ par_t2 c = par_t2 d /\ par_t3 c = par_t3 d /\
  par_p1 c = par_p1 d /\ par_p2 c = par_p2 d /\ par_p3 c = par_p3 d /\
  par_p4 c = par_p4 d /\ par_p5 c = par_p5 d /\ par_p6 c = par_p6 d /\
  par_p7 c = par_p7 d /\ par_p8 c = par_p8 d /\ par_p9 c = par_p9 d /\
  par_p10 c = par_p10 d /\ par_p11 c = par_p11 d.

(** ** Reading the register buffer *)

(** [reg_data[i]], promoted to [int]; a read past the end of the buffer has
    no defined value. *)
Definition reg (reg_data : list byte) (i : nat) : option Z :=
  option_map (fun b => Z.of_N (Byte.to_N b)) (nth_error reg_data i).

Notation "x <- e ;; k" :=
  (match e with Some x => k | None => None end)
  (at level 61, e at next level, right associativity).

(** "Parse raw values from register buffer". *)
Definition parse_nvm (reg_data : list byte) : option nvm_fields :=
  b0 <- reg reg_data 0 ;; b1 <- reg reg_data 1 ;; b2 <- reg reg_data 2 ;;
  b3 <- reg reg_data 3 ;; b4 <- reg reg_data 4 ;; b5 <- reg reg_data 5 ;;
  b6 <- reg reg_data 6 ;; b7 <- reg reg_data 7 ;; b8 <- reg reg_data 8 ;;
  b9 <- reg reg_data 9 ;; b10 <- reg reg_data 10 ;; b11 <- reg reg_data 11 ;;
  b12 <- reg reg_data 12 ;; b13 <- reg reg_data 13 ;; b14 <- reg reg_data 14 ;;
  b15 <- reg reg_data 15 ;; b16 <- reg reg_data 16 ;; b17 <- reg reg_data 17 ;;
  b18 <- reg reg_data 18 ;; b19 <- reg reg_data 19 ;; b20 <- reg reg_data 20 ;;
  Some {|
    raw_par_t1 := CInt.to_uint16 (Z.lor (CInt.to_uint16 (Z.shiftl b1 8)) b0);
    raw_par_t2 := CInt.to_uint16 (Z.lor (CInt.to_uint16 (Z.shiftl b3 8)) b2);
    raw_par_t3 := CInt.to_int8 b4;
    raw_par_p1 := CInt.to_int16 (Z.lor (CInt.to_int16 (Z.shiftl b6 8)) b5);
    raw_par_p2 := CInt.to_int16 (Z.lor (CInt.to_int16 (Z.shiftl b8 8)) b7);
    raw_par_p3 := CInt.to_int8 b9;
    raw_par_p4 := CInt.to_int8 b10;
    raw_par_p5 := CInt.to_uint16 (Z.lor (CInt.to_uint16 (Z.shiftl b12 8)) b11);
    raw_par_p6 := CInt.to_uint16 (Z.lor (CInt.to_uint16 (Z.shiftl b14 8)) b13);
    raw_par_p7 := CInt.to_int8 b15;
    raw_par_p8 := CInt.to_int8 b16;
    raw_par_p9 := CInt.to_int16 (Z.lor (CInt.to_int16 (Z.shiftl b18 8)) b17);
    raw_par_p10 := CInt.to_int8 b19;
    raw_par_p11 := CInt.to_int8 b20
  |}.

(** "Quantize according to Bosch's formula": the 14 coefficients are
    written, [t_lin] keeps the value the structure held. *)
Definition quantize (r : nvm_fields) (calib_data : bmp390_calib_data)
  : bmp390_calib_data :=
  {| par_t1 := (Double.of_int (raw_par_t1 r) / 0.00390625)%float;
     par_t2 := (Double.of_int (raw_par_t2 r) / 1073741824.0)%float;
     par_t3 := (Double.of_int (raw_par_t3 r) / 281474976710656.0)%float;
     par_p1 := ((Double.of_int (raw_par_p1 r) - 16384.0) / 1048576.0)%float;
     par_p2 := ((Double.of_int (raw_par_p2 r) - 16384.0) / 536870912.0)%float;
     par_p3 := (Double.of_int (raw_par_p3 r) / 4294967296.0)%float;
     par_p4 := (Double.of_int (raw_par_p4 r) / 137438953472.0)%float;
     par_p5 := (Double.of_int (raw_par_p5 r) / 0.125)%float;
     par_p6 := (Double.of_int (raw_par_p6 r) / 64.0)%float;
     par_p7 := (Double.of_int (raw_par_p7 r) / 256.0)%float;
     par_p8 := (Double.of_int (raw_par_p8 r) / 32768.0)%float;
     par_p9 := (Double.of_int (raw_par_p9 r) / 281474976710656.0)%float;
     par_p10 := (Double.of_int (raw_par_p10 r) / 281474976710656.0)%float;
     par_p11 := (Double.of_int (raw_par_p11 r) / 36893488147419103232.0)%float;
     t_lin := t_lin calib_data |}.

(** "Helper function - power calculation used in Bosch's formula"; the
    counter [i] and [power] are [uint8_t]. *)
Fixpoint pow_bmp3_loop (n : nat) (result base : float) : float :=
  match n with
  | O => result
  | S n' => pow_bmp3_loop n' (result * base)%float base
  end.

Definition pow_bmp3 (base : float) (power : Z) : float :=
  pow_bmp3_loop (Z.to_nat (CInt.to_uint8 power)) 1%float base.

(** The example register contents of both [main] functions. *)
Definition raw_calib_data : list byte :=
  [ xcb; x68; x68; x66; x03;
    xe9; xbe; x71; xd5; x07; x05;
    xff; x9f; xff; x9f; x0f; xfe;
    x00; xe0; xe0; xeb ].

(** ** The corrected simulator *)

Module Simulator.

Local Open Scope float_scope.

(** [bmp390_parse_calib_data]: [calib_data] is the structure the caller
    passes; the result is its content after the call. *)
Definition bmp390_parse_calib_data (reg_data : list byte)
    (calib_data : bmp390_calib_data) : option bmp390_calib_data :=
  r <- parse_nvm reg_data ;; Some (quantize r calib_data).

(** [bmp390_compensate_temperature]: the returned double and the structure
    after the call. *)
Definition bmp390_compensate_temperature (uncomp_temp : Z)
    (calib_data : bmp390_calib_data) : float * bmp390_calib_data :=
  let partial_data1 := Double.of_int uncomp_temp - par_t1 calib_data in
  let partial_data2 := partial_data1 * par_t2 calib_data in
  let calib_data' :=
    set_t_lin (partial_data2 + (partial_data1 * partial_data1) * par_t3 calib_data)
              calib_data in
  (t_lin calib_data', calib_data').

(** [bmp390_compensate_pressure]: the structure is passed by pointer to
    const; the pair is the returned double and the structure after the call. *)
Definition bmp390_compensate_pressure (uncomp_press : Z)
    (calib_data : bmp390_calib_data) : float * bmp390_calib_data :=
  (* Calculate offset *)
  let partial_data1 := par_p6 calib_data * t_lin calib_data in
  let partial_data2 := par_p7 calib_data * pow_bmp3 (t_lin calib_data) 2 in
  let partial_data3 := par_p8 calib_data * pow_bmp3 (t_lin calib_data) 3 in
  let partial_out1 := par_p5 calib_data + partial_data1 + partial_data2 + partial_data3 in
  (* Calculate sensitivity *)
  let partial_data1 := par_p2 calib_data * t_lin calib_data in
  let partial_data2 := par_p3 calib_data * pow_bmp3 (t_lin calib_data) 2 in
  let partial_data3 := par_p4 calib_data * pow_bmp3 (t_lin calib_data) 3 in
  let partial_out2 :=
    Double.of_int uncomp_press
    * (par_p1 calib_data + partial_data1 + partial_data2 + partial_data3) in
  (* Calculate final pressure *)
  let partial_data1 := pow_bmp3 (Double.of_int uncomp_press) 2 in
  let partial_data2 := par_p9 calib_data + par_p10 calib_data * t_lin calib_data in
  let partial_data3 := partial_data1 * partial_data2 in
  let partial_data4 :=
    partial_data3 + pow_bmp3 (Double.of_int uncomp_press) 3 * par_p11 calib_data in
  (partial_out1 + partial_out2 + partial_data4, calib_data).

(** [bmp390_get_sensor_data]: temperature first, then pressure, on the
    same structure; the result is (temperature, pressure) and the
    structure after both calls. *)
Definition bmp390_get_sensor_data (uncomp_temperature uncomp_pressure : Z)
    (calib_data : bmp390_calib_data) : (float * float) * bmp390_calib_data :=
  let (temperature, calib_data1) :=
    bmp390_compensate_temperature uncomp_temperature calib_data in
  let (pressure, calib_data2) :=
    bmp390_compensate_pressure uncomp_pressure calib_data1 in
  ((temperature, pressure), calib_data2).

Section Altitude.

(** [pow] of <math.h>, which the program links against. *)
Variable pow : float -> float -> float.

Definition sea_level_pressure : float := 101325.0.

Definition calculate_altitude (pressure : float) : float :=
  44330.0 * (1.0 - pow (pressure / sea_level_pressure) 0.1903).

End Altitude.

End Simulator.

(** ** The datasheet simulator (the version the corrected one replaces) *)

Module Datasheet.

Local Open Scope float_scope.

(** Its [bmp390_calib_data] holds the register integers themselves. *)
Record bmp390_calib_data : Set := {
  par_t1 : Z;  (* uint16_t *)
  par_t2 : Z;  (* uint16_t *)
  par_t3 : Z;  (* int8_t *)
  par_p1 : Z;  (* int16_t *)
  par_p2 : Z;  (* int16_t *)
  par_p3 : Z;  (* int8_t *)
  par_p4 : Z;  (* int8_t *)
  par_p5 : Z;  (* uint16_t *)
  par_p6 : Z;  (* uint16_t *)
  par_p7 : Z;  (* int8_t *)
  par_p8 : Z;  (* int8_t *)
  par_p9 : Z;  (* int16_t *)
  par_p10 : Z; (* int8_t *)
  par_p11 : Z  (* int8_t *)
}.

(** [bmp390_compensate_temperature]: the returned double and the value
    left in the global [t_lin]. *)
Definition bmp390_compensate_temperature (uncomp_temp : Z)
    (calib_data : bmp390_calib_data) : float * float :=
  let partial_data1 :=
    Double.of_int uncomp_temp - (256.0 * Double.of_int (par_t1 calib_data)) in
  let partial_data2 := Double.of_int (par_t2 calib_data) * partial_data1 in
  let partial_data3 := partial_data1 * partial_data1 in
  let partial_data4 := partial_data3 * Double.of_int (par_t3 calib_data) in
  let partial_data5 := (partial_data2 * 262144.0) + partial_data4 in
  let partial_data6 := partial_data5 / 4294967296.0 in
  let t_lin := partial_data6 in
  let comp_temp := partial_data6 / 100.0 in
  (comp_temp, t_lin).

(** The calibration of its [main]; [par_p5] and [par_p6] are
    [0xFFFFFFFF & (-94)] and [0xFFFFFFFF & (-7)] stored in a [uint16_t]. *)
Definition calib : bmp390_calib_data :=
  {| par_t1 := 26811; par_t2 := 26184; par_t3 := 3;
     par_p1 := -16647; par_p2 := -10879; par_p3 := 7; par_p4 := 5;
     par_p5 := CInt.to_uint16 (Z.land 4294967295 (-94));
     par_p6 := CInt.to_uint16 (Z.land 4294967295 (-7));
     par_p7 := 15; par_p8 := -2; par_p9 := -8192; par_p10 := -32;
     par_p11 := -21 |}.

(** [bmp390_compensate_pressure]: [t_lin] is the value of the global when
    the function is called. *)
Definition bmp390_compensate_pressure (uncomp_press : Z)
    (calib_data : bmp390_calib_data) (t_lin : float) : float :=
  (* Calculate offset *)
  let partial_data1 := t_lin * t_lin in
  let partial_data2 := partial_data1 / 64.0 in
  let partial_data3 := (partial_data2 * t_lin) / 256.0 in
  let partial_data4 := Double.of_int (par_p8 calib_data) * partial_data3 in
  let partial_data5 := (Double.of_int (par_p7 calib_data) * partial_data1) * 16.0 in
  let partial_data6 := (Double.of_int (par_p6 calib_data) * t_lin) * 4194304.0 in
  let offset :=
    (Double.of_int (par_p5 calib_data) * 140737488355328.0)
    + partial_data4 + partial_data5 + partial_data6 in
  (* Calculate sensitivity *)
  let partial_data2 := Double.of_int (par_p4 calib_data) * partial_data3 in
  let partial_data4 := (Double.of_int (par_p3 calib_data) * partial_data1) * 4.0 in
  let partial_data5 :=
    (Double.of_int (par_p2 calib_data) - 16384.0) * t_lin * 2097152.0 in
  let sensitivity :=
    ((Double.of_int (par_p1 calib_data) - 16384.0) * 70368744177664.0)
    + partial_data2 + partial_data4 + partial_data5 in
  (* Calculate compensated pressure *)
  let partial_data1 := (sensitivity / 16777216.0) * Double.of_int uncomp_press in
  let partial_data2 := Double.of_int (par_p10 calib_data) * t_lin in
  let partial_data3 := partial_data2 + (65536.0 * Double.of_int (par_p9 calib_data)) in
  let partial_data4 := (partial_data3 * Double.of_int uncomp_press) / 8192.0 in
  let partial_data5 := partial_data4 / 512.0 in
  let partial_data6 := Double.of_int uncomp_press * Double.of_int uncomp_press in
  let partial_data2 := (Double.of_int (par_p11 calib_data) * partial_data6) / 65536.0 in
  let partial_data3 := (partial_data2 * Double.of_int uncomp_press) / 128.0 in
  let partial_data4 := (offset / 4.0) + partial_data1 + partial_data5 + partial_data3 in
  let comp_press := partial_data4 / 25600.0 in
  comp_press.

(** [bmp390_get_sensor_data]: (temperature, pressure) and the value left in
    the global [t_lin], which held [t_lin] at the call. *)
Definition bmp390_get_sensor_data (uncomp_temperature uncomp_pressure : Z)
    (calib_data : bmp390_calib_data) (t_lin : float) : (float * float) * float :=
  let (temperature, t_lin1) :=
    bmp390_compensate_temperature uncomp_temperature calib_data in
  let pressure := bmp390_compensate_pressure uncomp_pressure calib_data t_lin1 in
  ((temperature, pressure), t_lin1).

End Datasheet.

(** ** The reverse calculator *)

Module ReverseCalc.

Local Open Scope float_scope.

(** [compensate_temperature]: the returned double and the structure after
    the call. *)
Definition compensate_temperature (uncomp_temp : Z) (calib : bmp390_calib_data)
  : float * bmp390_calib_data :=
  let partial_data1 := Double.of_int uncomp_temp - par_t1 calib in
  let partial_data2 := partial_data1 * par_t2 calib in
  let calib' :=
    set_t_lin (partial_data2 + (partial_data1 * partial_data1) * par_t3 calib) calib in
  (t_lin calib', calib').

(** [compensate_pressure]: the structure is passed by pointer to const. *)
Definition compensate_pressure (uncomp_press : Z) (calib : bmp390_calib_data)
  : float * bmp390_calib_data :=
  let partial_data1 := par_p6 calib * t_lin calib in
  let partial_data2 := par_p7 calib * pow_bmp3 (t_lin calib) 2 in
  let partial_data3 := par_p8 calib * pow_bmp3 (t_lin calib) 3 in
  let partial_out1 := par_p5 calib + partial_data1 + partial_data2 + partial_data3 in
  let partial_data1 := par_p2 calib * t_lin calib in
  let partial_data2 := par_p3 calib * pow_bmp3 (t_lin calib) 2 in
  let partial_data3 := par_p4 calib * pow_bmp3 (t_lin calib) 3 in
  let partial_out2 :=
    Double.of_int uncomp_press
    * (par_p1 calib + partial_data1 + partial_data2 + partial_data3) in
  let partial_data1 := pow_bmp3 (Double.of_int uncomp_press) 2 in
  let partial_data2 := par_p9 calib + par_p10 calib * t_lin calib in
  let partial_data3 := partial_data1 * partial_data2 in
  let partial_data4 :=
    partial_data3 + pow_bmp3 (Double.of_int uncomp_press) 3 * par_p11 calib in
  (partial_out1 + partial_out2 + partial_data4, calib).

(** The calibration [main] builds from its register bytes; [calib] is the
    content of the local structure before the assignments. *)
Definition main_calib (calib : bmp390_calib_data) : option bmp390_calib_data :=
  r <- parse_nvm raw_calib_data ;; Some (quantize r calib).

(** "24-bit max", the initial [high] of both searches. *)
Definition adc_max : Z := 16777215.

(** *** The binary search

    [reverse_calc_temperature] and [reverse_calc_pressure] are the same
    loop over their forward function and their tolerance. *)
Section Search.

Variable forward : Z -> bmp390_calib_data -> float * bmp390_calib_data.
Variable target : float.
Variable tolerance : float.

(** What one execution of the loop body does. *)
Inductive iteration : Set :=
| Return (mid : Z) (calib : bmp390_calib_data)
| Narrow (low high mid : Z) (calib : bmp390_calib_data).

(** The loop body on [uint32_t low, high]. *)
Definition body (low high : Z) (calib : bmp390_calib_data) : iteration :=
  let mid := (CInt.to_uint32 (low + high) / 2)%Z in
  let (calc, calib') := forward mid calib in
  if Double.fabs (calc - target) <? tolerance then Return mid calib'
  else if calc <? target then Narrow mid high mid calib'
  else Narrow low mid mid calib'.

(** [while (high - low > 1) { ... } return mid;]: [fuel] bounds the
    number of executions of the body, [mid] is [None] while the C
    variable is uninitialised.  [None] as a result: out of fuel. *)
Fixpoint search (fuel : nat) (low high : Z) (mid : option Z)
    (calib : bmp390_calib_data) : option (option Z * bmp390_calib_data) :=
  if (1 <? CInt.to_uint32 (high - low))%Z then
    match fuel with
    | O => None
    | S fuel' =>
        match body low high calib with
        | Return m c => Some (Some m, c)
        | Narrow low' high' m c => search fuel' low' high' (Some m) c
        end
    end
  else Some (mid, calib).

(** The same loop with its history: the midpoints the forward function
    was evaluated at, in order, and the interval at the return. *)
Record run : Set := {
  run_result : option Z;
  run_calib : bmp390_calib_data;
  run_visited : list Z;
  run_low : Z;
  run_high : Z
}.

Definition visit (m : Z) (r : run) : run :=
  {| run_result := run_result r; run_calib := run_calib r;
     run_visited := m :: run_visited r;
     run_low := run_low r; run_high := run_high r |}.

Fixpoint search_run (fuel : nat) (low high : Z) (mid : option Z)
    (calib : bmp390_calib_data) : option run :=
  if (1 <? CInt.to_uint32 (high - low))%Z then
    match fuel with
    | O => None
    | S fuel' =>
        match body low high calib with
        | Return m c =>
            Some {| run_result := Some m; run_calib := c; run_visited := [m];
                    run_low := low; run_high := high |}
        | Narrow low' high' m c =>
            option_map (visit m) (search_run fuel' low' high' (Some m) c)
        end
    end
  else Some {| run_result := mid; run_calib := calib; run_visited := [];
               run_low := low; run_high := high |}.

End Search.

(** The test of the loop on a forward value [calc]. *)
Definition within_tolerance (target tolerance calc : float) : bool :=
  Double.fabs (calc - target) <? tolerance.

(** How a run ends, [value] being the forward function on the coefficients
    the search started with: the result is the last midpoint evaluated, no
    earlier one was within tolerance, and either this one is, or it is not
    and the interval at the return has width 1. *)
Definition bisection_outcome (value : Z -> float) (target tolerance : float)
    (r : run) : Prop :=
  exists pre m,
    run_visited r = pre ++ [m] /\
    run_result r = Some m /\
    Forall (fun x => within_tolerance target tolerance (value x) = false) pre /\
    (within_tolerance target tolerance (value m) = true \/
     (within_tolerance target tolerance (value m) = false /\
      (run_high r - run_low r = 1)%Z)).

(** The bisection as the specification words it, without reference to the
    loop body: from the interval [low, high], [visited] lists the midpoints
    evaluated and [low_end, high_end] is the interval at the return.  An
    interval of width at most 1 ends the search; otherwise the midpoint
    [(low + high) / 2] is evaluated: within tolerance it is the last one and
    the interval stays; if not, the bisection goes on from [mid, high] when
    the forward value is below the target and from [low, mid] when it is
    not. *)
Fixpoint bisection (value : Z -> float) (target tolerance : float)
    (low high : Z) (visited : list Z) (low_end high_end : Z) : Prop :=
  match visited with
  | [] => (high - low <= 1)%Z /\ low_end = low /\ high_end = high
  | mid :: rest =>
      (1 < high - low)%Z /\ mid = ((low + high) / 2)%Z /\
      if within_tolerance target tolerance (value mid)
      then rest = [] /\ low_end = low /\ high_end = high
      else if value mid <? target
           then bisection value target tolerance mid high rest low_end high_end
           else bisection value target tolerance low mid rest low_end high_end
  end.

(** [reverse_calc_temperature], with [tolerance = 0.01]. *)
Definition reverse_calc_temperature (fuel : nat) (target_temp_c : float)
    (calib : bmp390_calib_data) : option (option Z * bmp390_calib_data) :=
  search compensate_temperature target_temp_c 0.01 fuel 0 adc_max None calib.

(** [reverse_calc_pressure], with [tolerance = 10.0]. *)
Definition reverse_calc_pressure (fuel : nat) (target_press_pa : float)
    (calib : bmp390_calib_data) : option (option Z * bmp390_calib_data) :=
  search compensate_pressure target_press_pa 10.0 fuel 0 adc_max None calib.

(** The searches with their history. *)
Definition reverse_calc_temperature_run (fuel : nat) (target_temp_c : float)
    (calib : bmp390_calib_data) : option run :=
  search_run compensate_temperature target_temp_c 0.01 fuel 0 adc_max None calib.

Definition reverse_calc_pressure_run (fuel : nat) (target_press_pa : float)
    (calib : bmp390_calib_data) : option run :=
  search_run compensate_pressure target_press_pa 10.0 fuel 0 adc_max None calib.

(** The two forward values [print_reverse_calc_results] (and the end of
    [main]) computes to verify the raw values: temperature first, then
    pressure, on the same structure. *)
Definition verify (temp_adc press_adc : Z) (calib : bmp390_calib_data)
  : (float * float) * bmp390_calib_data :=
  let (verify_temp, calib1) := compensate_temperature temp_adc calib in
  let (verify_press, calib2) := compensate_pressure press_adc calib1 in
  ((verify_temp, verify_press), calib2).

(** What [main] computes for one pair of target values: the two searches
    on the same structure, then the verification.  The result is
    (temp_adc, press_adc, verify_temp, verify_press) and the structure left;
    [None]: out of fuel, or a search returned its [mid] uninitialised. *)
Definition reverse_case (fuel : nat) (temperature_c pressure_pa : float)
    (calib : bmp390_calib_data)
  : option ((Z * Z * float * float) * bmp390_calib_data) :=
  match reverse_calc_temperature fuel temperature_c calib with
  | Some (Some temp_adc, calib1) =>
      match reverse_calc_pressure fuel pressure_pa calib1 with
      | Some (Some press_adc, calib2) =>
          let '((verify_temp, verify_press), calib3) :=
            verify temp_adc press_adc calib2 in
          Some ((temp_adc, press_adc, verify_temp, verify_press), calib3)
      | _ => None
      end
  | _ => None
  end.

End ReverseCalc.

(** ** The register map as a table of (offset, width, signedness) *)

Module Layout.

(** The byte at offset [off] of the block, as an unsigned number. *)
Definition byte_at (blk : list byte) (off : nat) : Z :=
  Z.of_N (Byte.to_N (nth off blk x00)).

(** A 16-bit field at [off], least significant byte first. *)
Definition u16 (blk : list byte) (off : nat) : Z :=
  byte_at blk off + 256 * byte_at blk (S off).

Definition i16 (blk : list byte) (off : nat) : Z := CInt.signed 16 (u16 blk off).

Definition i8 (blk : list byte) (off : nat) : Z := CInt.signed 8 (byte_at blk off).

(** The 14 fields read at the offsets 0, 2, 4, 5, 7, 9, 10, 11, 13, 15, 16,
    [off_p9], 19 and 20. *)
Definition fields (off_p9 : nat) (blk : list byte) : nvm_fields :=
  {| raw_par_t1 := u16 blk 0;
     raw_par_t2 := u16 blk 2;
     raw_par_t3 := i8 blk 4;
     raw_par_p1 := i16 blk 5;
     raw_par_p2 := i16 blk 7;
     raw_par_p3 := i8 blk 9;
     raw_par_p4 := i8 blk 10;
     raw_par_p5 := u16 blk 11;
     raw_par_p6 := u16 blk 13;
     raw_par_p7 := i8 blk 15;
     raw_par_p8 := i8 blk 16;
     raw_par_p9 := i16 blk off_p9;
     raw_par_p10 := i8 blk 19;
     raw_par_p11 := i8 blk 20 |}.

(** The layout table of the specification: the signed 16-bit field that
    follows offset 16 is listed at offset 18. *)
Definition spec_table (blk : list byte) : nvm_fields := fields 18 blk.

(** The layout with that field at offset 17. *)
Definition register_map (blk : list byte) : nvm_fields := fields 17 blk.

End Layout.

(** ** <math.h> *)

Module Libm.

Local Open Scope float_scope.

(** What C's Annex F (F.10.4.4) fixes for [pow(x, 0.1903)], the exponent
    being finite, positive and not an integer: 1 at [x = 1], +0 at
    [x = +0] and [x = -0], a NaN at finite [x < 0], +infinity at both
    infinities, a NaN at a NaN. *)
Record annex_f (pow : float -> float -> float) : Prop := {
  pow_of_one : pow 1 0.1903 = 1;
  pow_of_zero : forall x, PrimFloat.eqb x 0 = true -> pow x 0.1903 = 0;
  pow_of_negative :
    forall x, (x <? 0) = true -> Double.finite x = true -> pow x 0.1903 = nan;
  pow_of_infinity :
    forall x, PrimFloat.is_infinity x = true -> pow x 0.1903 = infinity;
  pow_of_nan : pow nan 0.1903 = nan
}.

(** A function with these values, to show that they can be met.  On the
    other arguments (positive, finite and not 1, where the result is the
    rounded power, which no statement below talks about) it returns its
    first argument. *)
Definition pow_fixed_cases (x y : float) : float :=
  if PrimFloat.is_infinity x then infinity
  else if PrimFloat.is_nan x then nan
  else if x <? 0 then nan
  else if PrimFloat.eqb x 0 then 0
  else if PrimFloat.eqb x 1 then 1
  else x.

End Libm.

(** A structure whose 15 slots hold 0.0, for the examples: the content of
    [calib] before [main] fills it is not specified. *)
Definition blank_calib : bmp390_calib_data :=
  {| par_t1 := 0; par_t2 := 0; par_t3 := 0; par_p1 := 0; par_p2 := 0;
     par_p3 := 0; par_p4 := 0; par_p5 := 0; par_p6 := 0; par_p7 := 0;
     par_p8 := 0; par_p9 := 0; par_p10 := 0; par_p11 := 0; t_lin := 0 |}%float.

(** The coefficients of the example registers, in a blank structure. *)
Definition example_calib : bmp390_calib_data :=
  quantize (Layout.register_map raw_calib_data) blank_calib.

(** ** The LED driver (gpio.c)

    The kernel services are outside the program: a run of the driver is
    the list of the services it calls, in order, and what they return is
    given. *)

Module Gpio.

Import Ascii.

(** "led connections - GPIO_48". *)
Definition DESD_LED : Z := 48.

(** The kernel services the driver calls (the [pr_info] and [pr_err]
    messages apart); the gpio number is always [DESD_LED]. *)
Inductive kcall : Set :=
| alloc_chrdev_region
| class_create
| device_create
| cdev_init
| cdev_add
| gpio_is_valid
| gpio_request
| gpio_direction_output (value : Z)
| gpio_set_value (value : Z)
| gpio_free
| cdev_del
| device_destroy
| class_destroy
| unregister_chrdev_region.

(** What the kernel answers to the calls of [desd_led_init]. *)
Record kernel : Set := {
  alloc_chrdev_region_ret : Z;
  class_create_is_err : bool;        (* IS_ERR(pclass) *)
  device_create_is_err : bool;       (* IS_ERR(pdevice) *)
  cdev_add_ret : Z;
  gpio_is_valid_ret : bool;
  gpio_request_ret : Z;
  gpio_direction_output_ret : Z
}.

(** The labels at the end of [desd_led_init]: each falls through to the
    next. *)
Definition alloc_chrdev_region_failed : list kcall := [].
Definition class_create_failed : list kcall :=
  unregister_chrdev_region :: alloc_chrdev_region_failed.
Definition device_create_failed : list kcall := class_destroy :: class_create_failed.
Definition cdev_add_failed : list kcall := device_destroy :: device_create_failed.
Definition gpio_is_valid_failed : list kcall := cdev_del :: cdev_add_failed.
Definition gpio_request_failed : list kcall := gpio_is_valid_failed.
Definition gpio_direction_output_failed : list kcall := gpio_free :: gpio_request_failed.

(** [desd_led_init]: the value returned and the kernel services called;
    [led_state] is the global at the call. *)
Definition desd_led_init (k : kernel) (led_state : Z) : Z * list kcall :=
  let ret := alloc_chrdev_region_ret k in
  if ret <? 0 then (ret, [alloc_chrdev_region] ++ alloc_chrdev_region_failed)
  else if class_create_is_err k then
    (-1, [alloc_chrdev_region; class_create] ++ class_create_failed)
  else if device_create_is_err k then
    (-1, [alloc_chrdev_region; class_create; device_create] ++ device_create_failed)
  else
    let ret := cdev_add_ret k in
    if ret <? 0 then
      (ret, [alloc_chrdev_region; class_create; device_create; cdev_init; cdev_add]
            ++ cdev_add_failed)
    else
      let ret := if gpio_is_valid_ret k then 1 else 0 in
      if ret =? 0 then
        (ret, [alloc_chrdev_region; class_create; device_create; cdev_init; cdev_add;
               gpio_is_valid] ++ gpio_is_valid_failed)
      else
        let ret := gpio_request_ret k in
        if negb (ret =? 0) then
          (ret, [alloc_chrdev_region; class_create; device_create; cdev_init; cdev_add;
                 gpio_is_valid; gpio_request] ++ gpio_request_failed)
        else
          let ret := gpio_direction_output_ret k in
          if negb (ret =? 0) then
            (ret, [alloc_chrdev_region; class_create; device_create; cdev_init;
                   cdev_add; gpio_is_valid; gpio_request;
                   gpio_direction_output led_state]
                  ++ gpio_direction_output_failed)
          else
            (0, [alloc_chrdev_region; class_create; device_create; cdev_init;
                 cdev_add; gpio_is_valid; gpio_request;
                 gpio_direction_output led_state]).

(** The calls of an initialization in which nothing fails. *)
Definition setup (led_state : Z) : list kcall :=
  [alloc_chrdev_region; class_create; device_create; cdev_init; cdev_add;
   gpio_is_valid; gpio_request; gpio_direction_output led_state].

(** [desd_led_exit]. *)
Definition desd_led_exit : list kcall :=
  [gpio_free; cdev_del; device_destroy; class_destroy; unregister_chrdev_region].

(** [desd_led_write]: [ubuf] is the first byte of the user buffer, [None]
    when [copy_from_user] cannot read it ([kbuf], initialised to the empty
    string, then still holds a zero byte).  The result is the value
    returned, the new [led_state] and the kernel services called. *)
Definition desd_led_write (ubuf : option Ascii.ascii) (bufsize : Z) (led_state : Z)
  : Z * Z * list kcall :=
  let kbuf0 := match ubuf with Some b => b | None => Ascii.zero end in
  if Ascii.eqb kbuf0 "1" then (bufsize, 1, [gpio_set_value 1])
  else if Ascii.eqb kbuf0 "0" then (bufsize, 0, [gpio_set_value 0])
  else (bufsize, led_state, []).

(** [desd_led_read]: [not_copied] is what [copy_to_user] returns (the
    number of bytes it could not copy).  The result is the value returned
    and the two bytes of [kbuf] offered to the user; [None] when
    [led_state] is neither 0 nor 1: [nbytes] is then returned
    uninitialised. *)
Definition desd_led_read (not_copied : Z) (led_state : Z)
  : option (Z * list Ascii.ascii) :=
  if led_state =? 1 then Some (2 - not_copied, ["1"; Ascii.zero]%char)
  else if led_state =? 0 then Some (2 - not_copied, ["0"; Ascii.zero]%char)
  else None.

(** A sequence of [write] calls, each given by its user byte and its
    [bufsize]: the last [led_state] and all the kernel services called. *)
Fixpoint writes (ws : list (option Ascii.ascii * Z)) (led_state : Z) : Z * list kcall :=
  match ws with
  | [] => (led_state, [])
  | (ubuf, bufsize) :: ws' =>
      let '(_, led_state', calls) := desd_led_write ubuf bufsize led_state in
      let (led_state'', calls') := writes ws' led_state' in
      (led_state'', calls ++ calls')
  end.

(** The test [desd_led_init] makes on what the kernel answered to a call:
    [true] when it goes on to the next step ([cdev_init] returns nothing and
    is not tested). *)
Definition passed (k : kernel) (c : kcall) : bool :=
  match c with
  | alloc_chrdev_region => negb (alloc_chrdev_region_ret k <? 0)
  | class_create => negb (class_create_is_err k)
  | device_create => negb (device_create_is_err k)
  | cdev_add => negb (cdev_add_ret k <? 0)
  | gpio_is_valid => gpio_is_valid_ret k
  | gpio_request => gpio_request_ret k =? 0
  | gpio_direction_output _ => gpio_direction_output_ret k =? 0
  | _ => true
  end.

(** The service that gives back what a service acquired. *)
Definition release (c : kcall) : list kcall :=
  match c with
  | alloc_chrdev_region => [unregister_chrdev_region]
  | class_create => [class_destroy]
  | device_create => [device_destroy]
  | cdev_add => [cdev_del]
  | gpio_request => [gpio_free]
  | _ => []
  end.

(** The releases of a list of successful calls, the most recent first. *)
Definition undo (done : list kcall) : list kcall := flat_map release (rev done).

(** The level the pin was last driven to. *)
Fixpoint pin (calls : list kcall) (level : option Z) : option Z :=
  match calls with
  | [] => level
  | gpio_direction_output v :: calls' => pin calls' (Some v)
  | gpio_set_value v :: calls' => pin calls' (Some v)
  | _ :: calls' => pin calls' level
  end.

(** The last byte "0" or "1" among the bytes written, as a state. *)
Fixpoint last_command (ws : list (option Ascii.ascii * Z)) (led_state : Z) : Z :=
  match ws with
  | [] => led_state
  | (Some b, _) :: ws' =>
      if Ascii.eqb b "1" then last_command ws' 1
      else if Ascii.eqb b "0" then last_command ws' 0
      else last_command ws' led_state
  | (None, _) :: ws' => last_command ws' led_state
  end.

End Gpio.

(** ** The LCD driver (Lcd_deiver.c)

    The bus is the list of the bytes sent to the display, in order; the
    delays ([mdelay], [__NOP]) are not modelled. *)

Module Lcd.

Definition LCD_CLEAR : Z := 0x01.
Definition LCD_FN_SET_8BIT : Z := 0x30.
Definition LCD_FN_SET_4BIT : Z := 0x20.
Definition LCD_FN_SET_4BIT_2LINES : Z := 0x28.
Definition LCD_DISP_CTRL : Z := 0x08.
Definition LCD_DISP_ON : Z := 0x0C.
Definition LCD_ENTRY_MODE : Z := 0x06.
Definition LCD_LINE1 : Z := 0x80.
Definition LCD_LINE2 : Z := 0xC0.

Definition LCD_RS : Z := 0.
Definition LCD_RW : Z := 1.
Definition LCD_EN : Z := 2.
Definition LCD_BL : Z := 3.

Definition LCD_CMD : Z := 0x80.
Definition LCD_DATA : Z := 1.

Definition BV (n : Z) : Z := Z.shiftl 1 n.

Section Bus.

(** [i2c_master_send] for one byte: its return value, given the bytes sent
    before and the byte. *)
Variable i2c_master_send : list Z -> Z -> Z.

(** [LcdWriteByte]: the argument is converted to [uint8_t]. *)
Definition LcdWriteByte (val : Z) (bus : list Z) : Z * list Z :=
  let val := CInt.to_uint8 val in
  (i2c_master_send bus val, bus ++ [val]).

(** [LcdWrite]. *)
Definition LcdWrite (rs val : Z) (bus : list Z) : list Z :=
  let rs := CInt.to_uint8 rs in
  let val := CInt.to_uint8 val in
  let high := CInt.to_uint8 (Z.land val 0xF0) in
  let low := CInt.to_uint8 (Z.land (Z.shiftl val 4) 0xF0) in
  let bvrs := CInt.to_uint8 (if rs =? LCD_CMD then 0 else BV LCD_RS) in
  let bus := snd (LcdWriteByte (Z.lor (Z.lor (Z.lor high bvrs) (BV LCD_EN)) (BV LCD_BL)) bus) in
  let bus := snd (LcdWriteByte (Z.lor (Z.lor high bvrs) (BV LCD_BL)) bus) in
  let bus := snd (LcdWriteByte (Z.lor (Z.lor (Z.lor low bvrs) (BV LCD_EN)) (BV LCD_BL)) bus) in
  snd (LcdWriteByte (Z.lor (Z.lor low bvrs) (BV LCD_BL)) bus).

(** [LcdInit]: the value returned and the bus. *)
Definition LcdInit (bus : list Z) : Z * list Z :=
  (* attention sequence *)
  let (ret, bus) := LcdWriteByte (Z.lor LCD_FN_SET_8BIT (BV LCD_EN)) bus in
  (* check if lcd is ready *)
  if negb (ret =? 0) then (-1, bus)
  else
    let bus := snd (LcdWriteByte LCD_FN_SET_8BIT bus) in
    let bus := snd (LcdWriteByte (Z.lor LCD_FN_SET_8BIT (BV LCD_EN)) bus) in
    let bus := snd (LcdWriteByte LCD_FN_SET_8BIT bus) in
    let bus := snd (LcdWriteByte (Z.lor LCD_FN_SET_8BIT (BV LCD_EN)) bus) in
    let bus := snd (LcdWriteByte LCD_FN_SET_8BIT bus) in
    let bus := snd (LcdWriteByte (Z.lor LCD_FN_SET_4BIT (BV LCD_EN)) bus) in
    let bus := snd (LcdWriteByte LCD_FN_SET_4BIT bus) in
    (* lcd initialization *)
    let bus := snd (LcdWriteByte LCD_FN_SET_4BIT_2LINES bus) in
    let bus := LcdWrite LCD_CMD LCD_DISP_CTRL bus in
    let bus := LcdWrite LCD_CMD LCD_CLEAR bus in
    let bus := LcdWrite LCD_CMD LCD_ENTRY_MODE bus in
    let bus := LcdWrite LCD_CMD LCD_DISP_ON bus in
    (ret, bus).

(** The loop of [LcdPuts] over the characters from [str[i]] on; [None]
    when the characters end without a zero: the loop then reads past the
    array. *)
Fixpoint LcdPuts_loop (str : list Z) (bus : list Z) : option (list Z) :=
  match str with
  | [] => None
  | c :: str' =>
      if c =? 0 then Some bus
      else LcdPuts_loop str' (LcdWrite LCD_DATA c bus)
  end.

(** [LcdPuts]: [str] is the content of the array. *)
Definition LcdPuts (line : Z) (str : list Z) (bus : list Z) : option (list Z) :=
  LcdPuts_loop str (LcdWrite LCD_CMD line bus).

(** [desd_lcd_probe]: it returns what [LcdInit] returns, on both paths. *)
Definition desd_lcd_probe (bus : list Z) : Z * list Z :=
  let (ret, bus) := LcdInit bus in
  if negb (ret =? 0) then (ret, bus) else (ret, bus).

End Bus.

(** What the display reads from four bytes of [LcdWrite]: the register
    select bit of the first byte, and the byte made of the high nibbles of
    the first and the third. *)
Definition frame (b1 b3 : Z) : bool * Z :=
  (Z.testbit b1 LCD_RS, Z.lor (Z.land b1 0xF0) (Z.shiftr (Z.land b3 0xF0) 4)).

Fixpoint frames (bytes : list Z) : list (bool * Z) :=
  match bytes with
  | b1 :: _ :: b3 :: _ :: bytes' => frame b1 b3 :: frames bytes'
  | _ => []
  end.

(** The four bytes of an [LcdWrite] as the display wants them: backlight on
    in all, read/write low in all, enable high in the first and the third
    and low in the second and the fourth, which otherwise repeat them. *)
Definition strobes (b1 b2 b3 b4 : Z) : bool :=
  forallb (fun b => Z.testbit b LCD_BL && negb (Z.testbit b LCD_RW)) [b1; b2; b3; b4]
  && Z.testbit b1 LCD_EN && Z.testbit b3 LCD_EN
  && (b2 =? b1 - BV LCD_EN) && (b4 =? b3 - BV LCD_EN)
  && Bool.eqb (Z.testbit b3 LCD_RS) (Z.testbit b1 LCD_RS).

End Lcd.

(** * Properties *)

(** ** Facts on the integer conversions *)

Module CIntFacts.

Import CInt.

Lemma to_uint32_small z : 0 <= z < 4294967296 -> to_uint32 z = z.
Proof. intros H. unfold to_uint32. now apply Z.mod_small. Qed.

Lemma land_shifted_byte k lo : 0 <= lo < 256 -> Z.land (k * 256) lo = 0.
Proof.
  intros Hlo. apply Z.bits_inj'. intros n Hn.
  rewrite Z.land_spec, Z.bits_0.
  destruct (Z.ltb_spec n 8) as [Hlt | Hge].
  - change 256 with (2 ^ 8). rewrite Z.mul_pow2_bits_low by lia. reflexivity.
  - destruct (Z.eq_dec lo 0) as [-> | Hnz].
    + rewrite Z.bits_0. apply andb_false_r.
    + rewrite (Z.bits_above_log2 lo n); [apply andb_false_r | lia |].
      apply Z.log2_lt_pow2; [lia |].
      apply Z.lt_le_trans with (2 ^ 8); [simpl; lia |].
      apply Z.pow_le_mono_r; lia.
Qed.

Lemma lor_shifted_byte k lo : 0 <= lo < 256 -> Z.lor (k * 256) lo = k * 256 + lo.
Proof.
  intros Hlo.
  rewrite <- Z.lxor_lor by now apply land_shifted_byte.
  symmetry. apply Z.add_nocarry_lxor. now apply land_shifted_byte.
Qed.

(** [(uint16_t)(hi << 8) | lo], stored in a [uint16_t]. *)
Lemma concat_uint16 hi lo :
  0 <= hi < 256 -> 0 <= lo < 256 ->
  to_uint16 (Z.lor (to_uint16 (Z.shiftl hi 8)) lo) = lo + 256 * hi.
Proof.
  intros Hhi Hlo. rewrite Z.shiftl_mul_pow2 by lia. change (2 ^ 8) with 256.
  unfold to_uint16. rewrite (Z.mod_small (hi * 256)) by lia.
  rewrite lor_shifted_byte by assumption. rewrite Z.mod_small; lia.
Qed.

(** [(int16_t)(hi << 8) | lo], stored in an [int16_t]. *)
Lemma concat_int16 hi lo :
  0 <= hi < 256 -> 0 <= lo < 256 ->
  to_int16 (Z.lor (to_int16 (Z.shiftl hi 8)) lo) = signed 16 (lo + 256 * hi).
Proof.
  intros Hhi Hlo. rewrite Z.shiftl_mul_pow2 by lia. change (2 ^ 8) with 256.
  unfold signed. change (2 ^ (16 - 1)) with 32768. change (2 ^ 16) with 65536.
  assert (Hin : to_int16 (hi * 256) = (if hi <? 128 then hi else hi - 256) * 256).
  { unfold to_int16. destruct (Z.ltb_spec hi 128).
    - rewrite Z.mod_small; lia.
    - replace (hi * 256 + 32768) with (hi * 256 - 32768 + 1 * 65536) by lia.
      rewrite Z.mod_add by lia. rewrite Z.mod_small; lia. }
  rewrite Hin, lor_shifted_byte by assumption.
  unfold to_int16.
  destruct (Z.ltb_spec hi 128); destruct (Z.ltb_spec (lo + 256 * hi) 32768); try lia.
  - rewrite Z.mod_small; lia.
  - rewrite Z.mod_small; lia.
Qed.

(** [(int8_t)b] for a byte [b]. *)
Lemma cast_int8 b : 0 <= b < 256 -> to_int8 b = signed 8 b.
Proof.
  intros Hb. unfold to_int8, signed.
  change (2 ^ (8 - 1)) with 128. change (2 ^ 8) with 256.
  destruct (Z.ltb_spec b 128).
  - rewrite Z.mod_small; lia.
  - replace (b + 128) with (b - 128 + 1 * 256) by lia.
    rewrite Z.mod_add by lia. rewrite Z.mod_small; lia.
Qed.

End CIntFacts.

(** ** Facts on doubles *)

Module DoubleFacts.

Local Open Scope float_scope.

Lemma SFmul_comm prec emax x y : SFmul prec emax x y = SFmul prec emax y x.
Proof.
  destruct x as [sx | sx | | sx mx ex], y as [sy | sy | | sy my ey]; simpl;
    try reflexivity; try (now rewrite xorb_comm).
  now rewrite xorb_comm, Pos.mul_comm, Z.add_comm.
Qed.

(** Multiplication of doubles is commutative. *)
Lemma mul_comm (x y : float) : x * y = y * x.
Proof. apply Prim2SF_inj. rewrite !mul_spec. apply SFmul_comm. Qed.

(** The mantissa 2^52 * m at exponent e - 52 is shifted back to m at e
    when (m, e) is canonical. *)
Lemma shr_fexp_shifted m e :
  fexp prec emax (Z.pos (digits2_pos m) + e) = e ->
  shr_fexp prec emax (Z.pos (4503599627370496 * m)) (-52 + e) loc_Exact
  = ({| shr_m := Z.pos m; shr_r := false; shr_s := false |}, e).
Proof.
  intros Hc. unfold shr_fexp.
  assert (Hd : (Zdigits2 (Z.pos (4503599627370496 * m))
                = Z.pos (digits2_pos m) + 52)%Z) by (cbn; lia).
  rewrite Hd.
  replace (Z.pos (digits2_pos m) + 52 + (-52 + e))%Z
    with (Z.pos (digits2_pos m) + e)%Z by lia.
  rewrite Hc. replace (e - (-52 + e))%Z with 52%Z by lia.
  unfold shr. apply f_equal2; [cbn; reflexivity | lia].
Qed.

(** [1.0 * x] is [x]: the product needs no rounding. *)
Lemma mul_1_l (x : float) : 1 * x = x.
Proof.
  apply Prim2SF_inj. rewrite mul_spec.
  pose proof (Prim2SF_valid x) as Hv.
  change (Prim2SF 1) with (S754_finite false 4503599627370496 (-52)).
  destruct (Prim2SF x) as [s | s | | s m e]; try reflexivity.
  unfold SF64mul, SFmul.
  unfold SpecFloat.valid_binary, bounded, canonical_mantissa in Hv.
  apply andb_true_iff in Hv. destruct Hv as [Hc He].
  apply Z.eqb_eq in Hc.
  cbn [xorb]. unfold binary_round_aux.
  rewrite (shr_fexp_shifted m e Hc).
  cbn [shr_m loc_of_shr_record shr_r shr_s round_nearest_even].
  unfold shr_fexp. cbn [Zdigits2]. rewrite Hc, Z.sub_diag. cbn.
  change (emax - prec)%Z with 971%Z in He. rewrite He. reflexivity.
Qed.

(** [pow_bmp3] at the two exponents the program uses. *)
Lemma pow_bmp3_2 (x : float) : pow_bmp3 x 2 = x * x.
Proof. change (pow_bmp3 x 2) with (1 * x * x). now rewrite mul_1_l. Qed.

Lemma pow_bmp3_3 (x : float) : pow_bmp3 x 3 = x * x * x.
Proof. change (pow_bmp3 x 3) with (1 * x * x * x). now rewrite mul_1_l. Qed.

(** The quantization divisors are the powers of two they stand for:
    mantissa 2^52 at exponent k - 52. *)
Lemma pow2_value :
  Forall (fun k => Prim2SF (Double.pow2 k)
                   = S754_finite false 4503599627370496 (k - 52))
         [-8; -3; 6; 8; 15; 20; 29; 30; 32; 37; 48; 65]%Z.
Proof. repeat constructor. Qed.

End DoubleFacts.

(** ** Forward compensation *)

Section ForwardCompensation.

Local Open Scope float_scope.

Variable u : Z.
Variable c : bmp390_calib_data.

(** The reverse calculator carries copies of the simulator's functions. *)
Lemma compensate_temperature_copy :
  ReverseCalc.compensate_temperature u c = Simulator.bmp390_compensate_temperature u c.
Proof. reflexivity. Qed.

Lemma compensate_pressure_copy :
  ReverseCalc.compensate_pressure u c = Simulator.bmp390_compensate_pressure u c.
Proof. reflexivity. Qed.

(** The temperature polynomial, in the operand order of the source. *)
Lemma temperature_source_order :
  let d := Double.of_int u - par_t1 c in
  fst (Simulator.bmp390_compensate_temperature u c) = d * par_t2 c + (d * d) * par_t3 c.
Proof. reflexivity. Qed.

(** C1: temperature compensation computes
    [t_lin = par_t2 * (u - par_t1) + par_t3 * (u - par_t1)^2], stores it in
    the slot [t_lin] of the coefficients and returns the stored value; this
    holds of the corrected simulator and of the reverse calculator. *)
Theorem temperature_compensation_polynomial :
  let d := Double.of_int u - par_t1 c in
  let t := par_t2 c * d + par_t3 c * (d * d) in
  Simulator.bmp390_compensate_temperature u c = (t, set_t_lin t c) /\
  ReverseCalc.compensate_temperature u c = (t, set_t_lin t c) /\
  t_lin (snd (Simulator.bmp390_compensate_temperature u c))
  = fst (Simulator.bmp390_compensate_temperature u c).
Proof.
  cbv zeta.
  rewrite (DoubleFacts.mul_comm (par_t2 c)), (DoubleFacts.mul_comm (par_t3 c)).
  repeat split.
Qed.

(** C2: pressure compensation returns offset + sensitivity term +
    quadratic correction + cubic correction, the polynomials in the stored
    linearization value [t] and the raw value [p] being those of the claim;
    the sum is associated as the source does:
    (offset + sensitivity) + (quadratic + cubic). *)
Theorem pressure_compensation_polynomial :
  let t := t_lin c in
  let p := Double.of_int u in
  let offset :=
    par_p5 c + par_p6 c * t + par_p7 c * (t * t) + par_p8 c * (t * t * t) in
  let sensitivity :=
    p * (par_p1 c + par_p2 c * t + par_p3 c * (t * t) + par_p4 c * (t * t * t)) in
  let quadratic := (p * p) * (par_p9 c + par_p10 c * t) in
  let cubic := (p * p * p) * par_p11 c in
  fst (Simulator.bmp390_compensate_pressure u c)
  = offset + sensitivity + (quadratic + cubic) /\
  fst (ReverseCalc.compensate_pressure u c)
  = offset + sensitivity + (quadratic + cubic).
Proof.
  cbv zeta. unfold ReverseCalc.compensate_pressure, Simulator.bmp390_compensate_pressure.
  cbv zeta. cbn [fst].
  rewrite !DoubleFacts.pow_bmp3_2, !DoubleFacts.pow_bmp3_3. split; reflexivity.
Qed.

(** C9: temperature compensation changes the slot [t_lin] and nothing
    else; pressure compensation changes nothing. *)
Theorem compensation_frame :
  (same_coefficients (snd (Simulator.bmp390_compensate_temperature u c)) c /\
   snd (Simulator.bmp390_compensate_temperature u c)
   = set_t_lin (fst (Simulator.bmp390_compensate_temperature u c)) c) /\
  snd (Simulator.bmp390_compensate_pressure u c) = c /\
  (same_coefficients (snd (ReverseCalc.compensate_temperature u c)) c /\
   snd (ReverseCalc.compensate_temperature u c)
   = set_t_lin (fst (ReverseCalc.compensate_temperature u c)) c) /\
  snd (ReverseCalc.compensate_pressure u c) = c.
Proof. unfold same_coefficients. cbn. repeat split. Qed.

End ForwardCompensation.

(** The datasheet simulator on the mid-scale sample of its [main]: the
    returned value (more than 24387) is not the stored one. *)
Example datasheet_temperature_mid_scale :
  PrimFloat.eqb (fst (Datasheet.bmp390_compensate_temperature 8388608 Datasheet.calib))
                (snd (Datasheet.bmp390_compensate_temperature 8388608 Datasheet.calib))
  = false /\
  (24387 <? fst (Datasheet.bmp390_compensate_temperature 8388608 Datasheet.calib))%float
  = true.
Proof. vm_compute. split; reflexivity. Qed.

(** ** The datasheet simulator's temperature

    It returns a hundredth of the value it stores.  Dividing by 100 moves
    every double that is finite and not zero, so the value returned is the
    stored one only when that is a zero, an infinity or a NaN. *)

Module DatasheetFacts.

Lemma digits2_pos_gt p : Zpos p < 2 ^ Zpos (digits2_pos p).
Proof.
  induction p as [p IH | p IH |]; simpl digits2_pos.
  - rewrite Pos2Z.inj_succ, Z.pow_succ_r by lia. lia.
  - rewrite Pos2Z.inj_succ, Z.pow_succ_r by lia. lia.
  - reflexivity.
Qed.

Lemma Zdigits2_le z k : 0 <= k -> 0 <= z < 2 ^ k -> Zdigits2 z <= k.
Proof.
  intros Hk [Hz Hlt]. destruct z as [| p | p]; simpl; [lia | | lia].
  clear Hz. revert k Hk Hlt.
  induction p as [p IH | p IH |]; intros k Hk Hlt; simpl digits2_pos.
  - destruct (Z.eq_dec k 0) as [-> | Hne]; [simpl in Hlt; lia |].
    replace k with (Z.succ (k - 1)) in Hlt by lia.
    rewrite Z.pow_succ_r in Hlt by lia.
    specialize (IH (k - 1)). rewrite Pos2Z.inj_succ. lia.
  - destruct (Z.eq_dec k 0) as [-> | Hne]; [simpl in Hlt; lia |].
    replace k with (Z.succ (k - 1)) in Hlt by lia.
    rewrite Z.pow_succ_r in Hlt by lia.
    specialize (IH (k - 1)). rewrite Pos2Z.inj_succ. lia.
  - destruct (Z.eq_dec k 0) as [-> | Hne]; [simpl in Hlt; lia | lia].
Qed.

Lemma shr_record_of_loc_m m l : shr_m (shr_record_of_loc m l) = m.
Proof. destruct l as [| []]; reflexivity. Qed.

Lemma shr_1_m mrs : 0 <= shr_m mrs -> 0 <= shr_m (shr_1 mrs) /\ 2 * shr_m (shr_1 mrs) <= shr_m mrs.
Proof.
  destruct mrs as [m r s]. simpl. intros Hm.
  destruct m as [| [p | p |] | p]; simpl; lia.
Qed.

(** A shift of at most one place. *)
Lemma shr_small mrs e n :
  0 <= shr_m mrs -> n <= 1 ->
  exists k, (k = 0 \/ k = 1) /\ snd (shr mrs e n) = e + k /\
            0 <= shr_m (fst (shr mrs e n)) /\
            2 ^ k * shr_m (fst (shr mrs e n)) <= shr_m mrs.
Proof.
  intros Hm Hn. destruct n as [| p | p]; simpl.
  - exists 0. rewrite Z.add_0_r. split; [auto |]. split; [reflexivity |].
    split; [exact Hm |]. change (2 ^ 0) with 1. lia.
  - assert (p = 1%positive) as -> by lia. simpl.
    exists 1. destruct (shr_1_m mrs Hm) as [H1 H2].
    split; [auto |]. split; [reflexivity |].
    split; [exact H1 |]. change (2 ^ 1) with 2. lia.
  - exists 0. rewrite Z.add_0_r. split; [auto |]. split; [reflexivity |].
    split; [exact Hm |]. change (2 ^ 0) with 1. lia.
Qed.

Lemma round_nearest_even_bounds m l :
  m <= round_nearest_even m l <= m + 1.
Proof.
  destruct l as [| []]; simpl; try lia.
  destruct (Z.even m); lia.
Qed.

(** What rounding can add: a finite result of [binary_round_aux] on a
    mantissa below 2^54 has its exponent raised by [k <= 2] places and a
    mantissa that is, at the old exponent, at most 2 units more. *)
Lemma binary_round_aux_bound sx mx ex lx s mf ef :
  0 <= mx -> mx + 1 < 2 ^ 54 -> -1074 <= ex ->
  binary_round_aux prec emax sx mx ex lx = S754_finite s mf ef ->
  exists k, 0 <= k <= 2 /\ ef = ex + k /\ 2 ^ k * Zpos mf <= mx + 2.
Proof.
  intros Hmx Hlt Hex. unfold binary_round_aux, shr_fexp.
  set (n1 := fexp prec emax (Zdigits2 mx + ex) - ex).
  assert (Hn1 : n1 <= 1).
  { pose proof (Zdigits2_le mx 54 ltac:(lia) ltac:(lia)).
    unfold n1, fexp, emin, prec, emax. lia. }
  destruct (shr_small (shr_record_of_loc mx lx) ex n1) as (k1 & Hk1 & He1 & Hm1 & Hb1);
    [rewrite shr_record_of_loc_m; exact Hmx | exact Hn1 |].
  rewrite shr_record_of_loc_m in Hb1.
  destruct (shr (shr_record_of_loc mx lx) ex n1) as [mrs1 e1]. simpl in He1, Hm1, Hb1.
  pose proof (round_nearest_even_bounds (shr_m mrs1) (loc_of_shr_record mrs1)) as Hr.
  set (m2 := round_nearest_even (shr_m mrs1) (loc_of_shr_record mrs1)) in *.
  set (n2 := fexp prec emax (Zdigits2 m2 + e1) - e1).
  assert (Hm1' : shr_m mrs1 <= mx).
  { destruct Hk1 as [-> | ->]; [change (2 ^ 0) with 1 in Hb1 | change (2 ^ 1) with 2 in Hb1]; lia. }
  assert (Hn2 : n2 <= 1).
  { pose proof (Zdigits2_le m2 54 ltac:(lia) ltac:(lia)).
    unfold n2, fexp, emin, prec, emax. lia. }
  destruct (shr_small (shr_record_of_loc m2 loc_Exact) e1 n2) as (k2 & Hk2 & He2 & Hm2 & Hb2);
    [simpl; lia | exact Hn2 |].
  destruct (shr (shr_record_of_loc m2 loc_Exact) e1 n2) as [mrs2 e2].
  simpl in He2, Hm2, Hb2.
  destruct (shr_m mrs2) as [| q | q]; try discriminate.
  destruct (e2 <=? emax - prec); [| discriminate].
  intros H. injection H as _ <- <-.
  exists (k1 + k2). subst e1 e2.
  change (2 ^ 0) with 1 in *. change (2 ^ 1) with 2 in *.
  destruct Hk1 as [-> | ->]; destruct Hk2 as [-> | ->];
    change (2 ^ (0 + 0)) with 1; change (2 ^ (0 + 1)) with 2;
    change (2 ^ (1 + 0)) with 2; change (2 ^ (1 + 1)) with 4;
    change (2 ^ 0) with 1 in *; change (2 ^ 1) with 2 in *;
    repeat split; lia.
Qed.

(** A finite double divided by 100 is another double. *)
Lemma SFdiv_100_moves s m e :
  bounded prec emax m e = true ->
  SFdiv prec emax (S754_finite s m e) (S754_finite false 7036874417766400 (-46))
  <> S754_finite s m e.
Proof.
  intros Hb Heq.
  unfold bounded, canonical_mantissa in Hb.
  apply andb_prop in Hb. destruct Hb as [Hc _].
  apply Z.eqb_eq in Hc. unfold fexp, emin, prec, emax in Hc.
  pose proof (digits2_pos_gt m) as Hm.
  destruct (Z.le_gt_cases (Zpos m) 2) as [Hsmall | Hbig].
  { assert (Hcases : m = 1%positive \/ m = 2%positive) by lia.
    destruct Hcases as [-> | ->];
      change (digits2_pos 1) with 1%positive in Hc;
      change (digits2_pos 2) with 2%positive in Hc;
      (assert (e = -1074) as -> by lia);
      destruct s; vm_compute in Heq; discriminate Heq. }
  set (d1 := Zpos (digits2_pos m)) in *.
  assert (Hd1 : 1 <= d1) by (unfold d1; lia).
  unfold SFdiv, SFdiv_core_binary in Heq.
  change (Zdigits2 (Zpos m)) with d1 in Heq.
  change (Zdigits2 (Zpos 7036874417766400)) with 53 in Heq.
  set (e' := Z.min (fexp prec emax (d1 + e - (53 + -46))) (e - -46)) in Heq.
  assert (He' : e' = Z.max (d1 + e - 60) (-1074))
    by (unfold e', fexp, emin, prec, emax; lia).
  set (sh := e - -46 - e') in Heq.
  assert (Hsh : 46 <= sh <= 106 - d1) by lia.
  assert (Hshift : match sh with
                   | Zpos _ => Z.shiftl (Zpos m) sh
                   | 0 => Zpos m
                   | Zneg _ => 0
                   end = Zpos m * 2 ^ sh).
  { destruct sh as [| p | p] eqn:Hp; try lia. apply Z.shiftl_mul_pow2. lia. }
  rewrite Hshift in Heq. clear Hshift.
  set (M := 7036874417766400) in *.
  assert (Hq : fst (Z.div_eucl (Zpos m * 2 ^ sh) M) = Zpos m * 2 ^ sh / M) by reflexivity.
  destruct (Z.div_eucl (Zpos m * 2 ^ sh) M) as [q r]. cbn [fst] in Hq.
  assert (Hpow : Zpos m * 2 ^ sh < 2 ^ 106).
  { assert (H1 : 2 ^ sh <= 2 ^ (106 - d1)) by (apply Z.pow_le_mono_r; lia).
    assert (H2 : 2 ^ d1 * 2 ^ (106 - d1) = 2 ^ 106).
    { rewrite <- Z.pow_add_r by lia. f_equal. lia. }
    assert (H3 : 0 < 2 ^ sh) by (apply Z.pow_pos_nonneg; lia).
    nia. }
  assert (Hq0 : 0 <= q).
  { rewrite Hq. apply Z.div_pos; [| reflexivity].
    apply Z.mul_nonneg_nonneg; [lia | apply Z.pow_nonneg; lia]. }
  assert (Hq1 : q + 1 < 2 ^ 54).
  { assert (H : q <= 2 ^ 106 / M).
    { rewrite Hq. apply Z.div_le_mono; [reflexivity | lia]. }
    change (2 ^ 106 / M) with 11529215046068469 in H.
    change (2 ^ 54) with 18014398509481984. lia. }
  assert (Hex : -1074 <= e') by lia.
  destruct (binary_round_aux_bound _ _ _ _ _ _ _ Hq0 Hq1 Hex Heq)
    as (k & Hk & Hek & Hbound).
  assert (Hshk : sh = 46 + k) by lia.
  assert (HX : q = (2 ^ k * Zpos m) / 100).
  { rewrite Hq, Hshk, Z.pow_add_r by lia.
    change M with (100 * 2 ^ 46).
    replace (Zpos m * (2 ^ 46 * 2 ^ k)) with ((2 ^ k * Zpos m) * 2 ^ 46) by ring.
    apply Z.div_mul_cancel_r; [lia | apply Z.pow_nonzero; lia]. }
  pose proof (Z.mul_div_le (2 ^ k * Zpos m) 100 ltac:(lia)) as Hdiv.
  rewrite <- HX in Hdiv.
  assert (Hk2 : 1 <= 2 ^ k) by (apply (Z.pow_le_mono_r 2 0 k); lia).
  nia.
Qed.

Lemma div_100_moves (x : float) s m e :
  Prim2SF x = S754_finite s m e -> (x / 100)%float <> x.
Proof.
  intros Hx Heq.
  apply (f_equal Prim2SF) in Heq.
  rewrite FloatAxioms.div_spec, Hx in Heq.
  pose proof (Prim2SF_valid x) as Hv. rewrite Hx in Hv. simpl in Hv.
  revert Heq.
  replace (Prim2SF 100) with (S754_finite false 7036874417766400 (-46))
    by (vm_compute; reflexivity).
  apply SFdiv_100_moves. exact Hv.
Qed.

(** The tests of a double that is a zero, an infinity or a NaN. *)
Lemma degenerate_shape (x : float) :
  (PrimFloat.eqb x 0 || negb (Double.finite x)) = true <->
  (forall s m e, Prim2SF x <> S754_finite s m e).
Proof.
  unfold Double.finite, is_nan, is_infinity.
  rewrite !FloatAxioms.eqb_spec, FloatAxioms.abs_spec.
  change (Prim2SF 0) with (S754_zero false).
  change (Prim2SF infinity) with (S754_infinity false).
  destruct (Prim2SF x) as [s | s | | s m e].
  - split; [intros _ s' m e H; discriminate H | reflexivity].
  - split; [intros _ s' m e H; discriminate H | destruct s; reflexivity].
  - split; [intros _ s' m e H; discriminate H | reflexivity].
  - split.
    + unfold SFeqb. simpl. rewrite Z.compare_refl, Pos.compare_cont_refl.
      destruct s; intros H; discriminate H.
    + intros H. exfalso. exact (H s m e eq_refl).
Qed.

(** A zero, an infinity and a NaN divided by 100 are themselves. *)
Lemma div_100_fixes (x : float) :
  (forall s m e, Prim2SF x <> S754_finite s m e) -> (x / 100)%float = x.
Proof.
  intros H. apply Prim2SF_inj. rewrite FloatAxioms.div_spec.
  replace (Prim2SF 100) with (S754_finite false 7036874417766400 (-46))
    by (vm_compute; reflexivity).
  destruct (Prim2SF x) as [s | s | | s m e].
  - destruct s; reflexivity.
  - destruct s; reflexivity.
  - reflexivity.
  - exfalso. exact (H s m e eq_refl).
Qed.

(** A test that holds of every integer of [0, n) holds of each. *)
Lemma for_all_below (n : Z) (P : Z -> bool) :
  forallb P (map Z.of_nat (seq 0 (Z.to_nat n))) = true ->
  forall z, 0 <= z < n -> P z = true.
Proof.
  intros H z Hz. rewrite forallb_forall in H. apply H.
  apply in_map_iff. exists (Z.to_nat z). split; [lia |]. apply in_seq. lia.
Qed.

(** The same for the 16-bit values, by their two bytes. *)
Lemma for_all_words (P : Z -> bool) :
  forallb (fun hi => forallb (fun lo => P (256 * hi + lo))
                       (map Z.of_nat (seq 0 256)))
    (map Z.of_nat (seq 0 256)) = true ->
  forall z, 0 <= z < 65536 -> P z = true.
Proof.
  intros H z Hz.
  assert (Hbyte : forall b, 0 <= b < 256 -> In b (map Z.of_nat (seq 0 256))).
  { intros b Hb. apply in_map_iff. exists (Z.to_nat b).
    split; [lia |]. apply in_seq. lia. }
  pose proof (Z.div_mod z 256 ltac:(lia)) as Hdm.
  pose proof (Z.mod_pos_bound z 256 ltac:(lia)) as Hlo.
  rewrite forallb_forall in H. specialize (H (z / 256)).
  rewrite forallb_forall in H.
  rewrite Hdm. apply H; apply Hbyte; lia.
Qed.

(** At the raw value [256 * par_t1], [partial_data1] is 0. *)
Lemma reference_difference (t1 : Z) :
  0 <= t1 < 65536 ->
  (Double.of_int (256 * t1) - 256.0 * Double.of_int t1)%float = 0%float.
Proof.
  intros H. apply FloatAxioms.Leibniz.eqb_spec.
  apply (for_all_words
           (fun z => PrimFloat.Leibniz.eqb
                       (Double.of_int (256 * z) - 256.0 * Double.of_int z)%float
                       0%float)); [| exact H].
  vm_compute. reflexivity.
Qed.

Lemma linear_term_at_zero (t2 : Z) :
  0 <= t2 < 65536 -> (Double.of_int t2 * 0)%float = 0%float.
Proof.
  intros H. apply FloatAxioms.Leibniz.eqb_spec.
  apply (for_all_words
           (fun z => PrimFloat.Leibniz.eqb (Double.of_int z * 0)%float 0%float));
    [| exact H].
  vm_compute. reflexivity.
Qed.

Lemma quadratic_term_at_zero (t3 : Z) :
  -128 <= t3 < 128 ->
  ((0 * 262144.0 + (0 * 0) * Double.of_int t3) / 4294967296.0)%float = 0%float.
Proof.
  intros H. apply FloatAxioms.Leibniz.eqb_spec.
  replace t3 with ((t3 + 128) - 128) by lia.
  apply (for_all_below 256
           (fun z => PrimFloat.Leibniz.eqb
                       ((0 * 262144.0 + (0 * 0) * Double.of_int (z - 128))
                        / 4294967296.0)%float 0%float)); [| lia].
  vm_compute. reflexivity.
Qed.

End DatasheetFacts.

(** The datasheet simulator's [bmp390_compensate_temperature] is another
    function than the one over decoded coefficients: it keeps [t_lin] in a
    global and returns a hundredth of it.  The double returned is the
    double stored exactly when the stored one is a zero, an infinity or a
    NaN.  The zero occurs: whatever the registers [par_t1], [par_t2] and
    [par_t3] hold (in the ranges of their C types), at the raw value
    [256 * par_t1] both the value returned and the value stored are 0. *)
Theorem datasheet_temperature_hundredth (u : Z)
    (calib : Datasheet.bmp390_calib_data) :
  let returned := fst (Datasheet.bmp390_compensate_temperature u calib) in
  let stored := snd (Datasheet.bmp390_compensate_temperature u calib) in
  returned = (stored / 100.0)%float /\
  (returned = stored <->
   (PrimFloat.eqb stored 0 || negb (Double.finite stored)) = true) /\
  (0 <= Datasheet.par_t1 calib < 65536 ->
   0 <= Datasheet.par_t2 calib < 65536 ->
   -128 <= Datasheet.par_t3 calib < 128 ->
   Datasheet.bmp390_compensate_temperature (256 * Datasheet.par_t1 calib) calib
   = (0, 0)%float).
Proof.
  cbv zeta. split; [reflexivity |]. split.
  - change (fst (Datasheet.bmp390_compensate_temperature u calib))
      with (snd (Datasheet.bmp390_compensate_temperature u calib) / 100.0)%float.
    rewrite DatasheetFacts.degenerate_shape. split.
    + intros Heq s m e Hx.
      exact (DatasheetFacts.div_100_moves _ s m e Hx Heq).
    + apply DatasheetFacts.div_100_fixes.
  - intros H1 H2 H3. unfold Datasheet.bmp390_compensate_temperature.
    cbv zeta.
    rewrite (DatasheetFacts.reference_difference _ H1).
    rewrite (DatasheetFacts.linear_term_at_zero _ H2).
    rewrite (DatasheetFacts.quadratic_term_at_zero _ H3).
    reflexivity.
Qed.

Lemma datasheet_temperature_hundredth_witness :
  Datasheet.bmp390_compensate_temperature 6863616 Datasheet.calib = (0, 0)%float.
Proof.
  refine (proj2 (proj2 (datasheet_temperature_hundredth 0 Datasheet.calib)) _ _ _);
    simpl; lia.
Defined.

(** ** The calibration decoder *)

Lemma byte_range (b : byte) : 0 <= Z.of_N (Byte.to_N b) < 256.
Proof. pose proof (Byte.to_N_bounded b). lia. Qed.

(** The decoder reads every field at its place in the register map. *)
Lemma parse_nvm_register_map (reg_data : list byte) :
  length reg_data = 21%nat -> parse_nvm reg_data = Some (Layout.register_map reg_data).
Proof.
  intros block_length.
  do 21 (destruct reg_data as [| ? reg_data]; [discriminate block_length |]).
  destruct reg_data; [clear block_length | discriminate block_length].
  unfold parse_nvm, reg, Layout.register_map, Layout.fields, Layout.i16, Layout.i8,
    Layout.u16, Layout.byte_at.
  cbn [nth_error option_map nth].
  repeat match goal with
         | |- context [Z.of_N (Byte.to_N ?b)] =>
             let z := fresh "z" in
             let Hz := fresh "Hz" in
             pose proof (byte_range b) as Hz;
             set (z := Z.of_N (Byte.to_N b)) in *; clearbody z
         end.
  rewrite !CIntFacts.concat_uint16, !CIntFacts.concat_int16, !CIntFacts.cast_int8
    by assumption.
  reflexivity.
Qed.

(** C3, amended: on a block of 21 bytes the decoder reads unsigned 16-bit
    fields at offsets 0, 2, 11 and 13, signed 16-bit fields at offsets 5, 7
    and 17, and signed 8-bit fields at offsets 4, 9, 10, 15, 16, 19 and 20,
    each 16-bit field least significant byte first; the coefficients of the
    simulator, and those of the reverse calculator's [main], are quantized
    from these fields. *)
Theorem decoder_field_layout (reg_data : list byte) (calib_data : bmp390_calib_data) :
  length reg_data = 21%nat ->
  parse_nvm reg_data = Some (Layout.register_map reg_data) /\
  Simulator.bmp390_parse_calib_data reg_data calib_data
  = Some (quantize (Layout.register_map reg_data) calib_data) /\
  ReverseCalc.main_calib calib_data
  = Some (quantize (Layout.register_map raw_calib_data) calib_data).
Proof.
  intros block_length.
  unfold Simulator.bmp390_parse_calib_data, ReverseCalc.main_calib.
  rewrite (parse_nvm_register_map reg_data block_length).
  rewrite (parse_nvm_register_map raw_calib_data eq_refl).
  repeat split.
Qed.

Lemma decoder_field_layout_witness :
  length raw_calib_data = 21%nat /\
  parse_nvm raw_calib_data = Some (Layout.register_map raw_calib_data) /\
  Simulator.bmp390_parse_calib_data raw_calib_data blank_calib
  = Some (quantize (Layout.register_map raw_calib_data) blank_calib) /\
  ReverseCalc.main_calib blank_calib
  = Some (quantize (Layout.register_map raw_calib_data) blank_calib).
Proof.
  split; [reflexivity |].
  exact (decoder_field_layout raw_calib_data blank_calib eq_refl).
Defined.

(** C3 as stated fails: a signed 16-bit field at offset 18 is not what the
    decoder reads.  On the example registers (bytes 17, 18, 19 are 0x00,
    0xE0, 0xE0) the decoder finds [par_p9 = -8192], the bytes at offsets 18
    and 19 read -7968. *)
Lemma spec_table_misplaces_par_p9 :
  length raw_calib_data = 21%nat /\
  option_map raw_par_p9 (parse_nvm raw_calib_data) = Some (-8192) /\
  raw_par_p9 (Layout.spec_table raw_calib_data) = -7968 /\
  parse_nvm raw_calib_data <> Some (Layout.spec_table raw_calib_data).
Proof.
  split; [reflexivity |]. split; [reflexivity |]. split; [reflexivity |].
  intros H. apply (f_equal (option_map raw_par_p9)) in H.
  vm_compute in H. discriminate H.
Qed.

(** C4: on a block of 21 bytes, each coefficient is its register field
    divided by the power of two of the claim (1/256 and 1/8 are 2^-8 and
    2^-3), fields 4 and 5 ([par_p1], [par_p2]) being reduced by 16384 first;
    [t_lin] is not written. *)
Theorem quantization_constants (reg_data : list byte) (calib_data : bmp390_calib_data) :
  length reg_data = 21%nat ->
  exists r c,
    parse_nvm reg_data = Some r /\
    Simulator.bmp390_parse_calib_data reg_data calib_data = Some c /\
    (par_t1 c = Double.of_int (raw_par_t1 r) / Double.pow2 (-8) /\
     par_t2 c = Double.of_int (raw_par_t2 r) / Double.pow2 30 /\
     par_t3 c = Double.of_int (raw_par_t3 r) / Double.pow2 48 /\
     par_p1 c = (Double.of_int (raw_par_p1 r) - 16384) / Double.pow2 20 /\
     par_p2 c = (Double.of_int (raw_par_p2 r) - 16384) / Double.pow2 29 /\
     par_p3 c = Double.of_int (raw_par_p3 r) / Double.pow2 32 /\
     par_p4 c = Double.of_int (raw_par_p4 r) / Double.pow2 37 /\
     par_p5 c = Double.of_int (raw_par_p5 r) / Double.pow2 (-3) /\
     par_p6 c = Double.of_int (raw_par_p6 r) / Double.pow2 6 /\
     par_p7 c = Double.of_int (raw_par_p7 r) / Double.pow2 8 /\
     par_p8 c = Double.of_int (raw_par_p8 r) / Double.pow2 15 /\
     par_p9 c = Double.of_int (raw_par_p9 r) / Double.pow2 48 /\
     par_p10 c = Double.of_int (raw_par_p10 r) / Double.pow2 48 /\
     par_p11 c = Double.of_int (raw_par_p11 r) / Double.pow2 65)%float /\
    t_lin c = t_lin calib_data.
Proof.
  intros block_length.
  exists (Layout.register_map reg_data),
         (quantize (Layout.register_map reg_data) calib_data).
  unfold Simulator.bmp390_parse_calib_data.
  rewrite (parse_nvm_register_map reg_data block_length).
  repeat split.
Qed.

Lemma quantization_constants_witness :
  length raw_calib_data = 21%nat /\
  exists r c,
    parse_nvm raw_calib_data = Some r /\
    Simulator.bmp390_parse_calib_data raw_calib_data blank_calib = Some c /\
    (par_t1 c = Double.of_int (raw_par_t1 r) / Double.pow2 (-8) /\
     par_t2 c = Double.of_int (raw_par_t2 r) / Double.pow2 30 /\
     par_t3 c = Double.of_int (raw_par_t3 r) / Double.pow2 48 /\
     par_p1 c = (Double.of_int (raw_par_p1 r) - 16384) / Double.pow2 20 /\
     par_p2 c = (Double.of_int (raw_par_p2 r) - 16384) / Double.pow2 29 /\
     par_p3 c = Double.of_int (raw_par_p3 r) / Double.pow2 32 /\
     par_p4 c = Double.of_int (raw_par_p4 r) / Double.pow2 37 /\
     par_p5 c = Double.of_int (raw_par_p5 r) / Double.pow2 (-3) /\
     par_p6 c = Double.of_int (raw_par_p6 r) / Double.pow2 6 /\
     par_p7 c = Double.of_int (raw_par_p7 r) / Double.pow2 8 /\
     par_p8 c = Double.of_int (raw_par_p8 r) / Double.pow2 15 /\
     par_p9 c = Double.of_int (raw_par_p9 r) / Double.pow2 48 /\
     par_p10 c = Double.of_int (raw_par_p10 r) / Double.pow2 48 /\
     par_p11 c = Double.of_int (raw_par_p11 r) / Double.pow2 65)%float /\
    t_lin c = t_lin blank_calib.
Proof.
  split; [reflexivity |].
  exact (quantization_constants raw_calib_data blank_calib eq_refl).
Defined.

(** The example registers decode to the values the comments of [main] give. *)
Example raw_calib_data_fields :
  parse_nvm raw_calib_data
  = Some {| raw_par_t1 := 26827; raw_par_t2 := 26216; raw_par_t3 := 3;
            raw_par_p1 := -16663; raw_par_p2 := -10895; raw_par_p3 := 7;
            raw_par_p4 := 5; raw_par_p5 := 40959; raw_par_p6 := 40959;
            raw_par_p7 := 15; raw_par_p8 := -2; raw_par_p9 := -8192;
            raw_par_p10 := -32; raw_par_p11 := -21 |}.
Proof. reflexivity. Qed.

(** ** The altitude estimator *)

Module AltitudeFacts.

Local Open Scope float_scope.

(** The tests on a double, from its value as a [spec_float]. *)
Lemma zero_tests x s :
  Prim2SF x = S754_zero s ->
  PrimFloat.eqb x 0 = true /\ (x <? 0) = false /\
  PrimFloat.is_nan x = false /\ PrimFloat.is_infinity x = false.
Proof.
  intros H. unfold is_nan, is_infinity.
  rewrite !FloatAxioms.eqb_spec, FloatAxioms.ltb_spec, FloatAxioms.abs_spec, H.
  repeat split.
Qed.

Lemma negative_tests x m e :
  Prim2SF x = S754_finite true m e ->
  PrimFloat.eqb x 0 = false /\ (x <? 0) = true /\ Double.finite x = true.
Proof.
  intros H. unfold Double.finite, is_nan, is_infinity.
  rewrite !FloatAxioms.eqb_spec, FloatAxioms.ltb_spec, FloatAxioms.abs_spec, H.
  unfold SFeqb, SFltb. simpl. rewrite Z.compare_refl, Pos.compare_cont_refl.
  repeat split.
Qed.

Lemma infinity_tests x s :
  Prim2SF x = S754_infinity s ->
  PrimFloat.eqb x 0 = false /\ PrimFloat.is_infinity x = true.
Proof.
  intros H. unfold is_infinity.
  rewrite !FloatAxioms.eqb_spec, FloatAxioms.abs_spec, H.
  destruct s; repeat split.
Qed.

Lemma nan_tests x : Prim2SF x = S754_nan -> x = nan /\ PrimFloat.eqb x 0 = false.
Proof.
  intros H. split; [apply Prim2SF_inj; rewrite H; reflexivity |].
  rewrite FloatAxioms.eqb_spec, H. reflexivity.
Qed.

Lemma eqb_zero_shape x : PrimFloat.eqb x 0 = true -> exists s, Prim2SF x = S754_zero s.
Proof.
  rewrite FloatAxioms.eqb_spec. change (Prim2SF 0) with (S754_zero false).
  destruct (Prim2SF x) as [s | s | | s m e]; unfold SFeqb; simpl;
    try (destruct s); intros H; try discriminate H; eauto.
Qed.

(** A double [p <= 0] is a zero, minus infinity or a negative number. *)
Lemma leb_zero_shape p :
  (p <=? 0) = true ->
  (exists s, Prim2SF p = S754_zero s) \/ Prim2SF p = S754_infinity true \/
  (exists m e, Prim2SF p = S754_finite true m e).
Proof.
  rewrite FloatAxioms.leb_spec. change (Prim2SF 0) with (S754_zero false).
  destruct (Prim2SF p) as [s | s | | s m e]; unfold SFleb; simpl;
    try (destruct s); intros H; try discriminate H; eauto.
Qed.

(** Rounding keeps the sign. *)
Lemma binary_round_aux_shape s m e l :
  let r := binary_round_aux prec emax s m e l in
  r = S754_zero s \/ r = S754_infinity s \/ r = S754_nan \/
  exists m' e', r = S754_finite s m' e'.
Proof.
  unfold binary_round_aux.
  destruct (shr_fexp prec emax m e l) as [mrs' e'].
  destruct (shr_fexp prec emax _ e' loc_Exact) as [mrs'' e''].
  destruct (shr_m mrs'') as [| q | q]; auto.
  destruct (e'' <=? emax - prec)%Z; eauto 6.
Qed.

(** The quotient [p / 101325] of a double [p <= 0]. *)
Lemma quotient_shape p :
  (p <=? 0) = true ->
  (exists s, Prim2SF (p / 101325) = S754_zero s) \/
  (exists s, Prim2SF (p / 101325) = S754_infinity s) \/
  Prim2SF (p / 101325) = S754_nan \/
  (exists m e, Prim2SF (p / 101325) = S754_finite true m e).
Proof.
  intros Hp. rewrite FloatAxioms.div_spec.
  set (d := Prim2SF 101325). vm_compute in d. subst d.
  destruct (leb_zero_shape p Hp) as [[s ->] | [-> | (m & e & ->)]]; simpl; eauto.
  unfold SF64div, SFdiv.
  match goal with
  | |- context [SFdiv_core_binary ?a ?b ?c ?d ?e ?f] =>
      destruct (SFdiv_core_binary a b c d e f) as [[mz ez] lz]
  end.
  destruct (binary_round_aux_shape true mz ez lz) as [H | [H | [H | (m' & e' & H)]]];
    rewrite H; eauto 6.
Qed.

(** The values Annex F fixes can be met. *)
Lemma pow_fixed_cases_annex_f : Libm.annex_f Libm.pow_fixed_cases.
Proof.
  constructor.
  - reflexivity.
  - intros x Hx. destruct (eqb_zero_shape x Hx) as [s Hs].
    destruct (zero_tests x s Hs) as (_ & Hlt & Hnan & Hinf).
    unfold Libm.pow_fixed_cases. rewrite Hinf, Hnan, Hlt, Hx. reflexivity.
  - intros x Hneg Hfin. unfold Double.finite in Hfin.
    apply andb_true_iff in Hfin. destruct Hfin as [Hnan Hinf].
    apply negb_true_iff in Hnan, Hinf.
    unfold Libm.pow_fixed_cases. rewrite Hinf, Hnan, Hneg. reflexivity.
  - intros x Hinf. unfold Libm.pow_fixed_cases. rewrite Hinf. reflexivity.
  - reflexivity.
Qed.

Section Altitude.

Variable pow : float -> float -> float.
Hypothesis pow_annex_f : Libm.annex_f pow.

Lemma altitude_at_sea_level : Simulator.calculate_altitude pow 101325 = 0.
Proof.
  unfold Simulator.calculate_altitude, Simulator.sea_level_pressure.
  change (101325 / 101325.0) with 1.
  rewrite (Libm.pow_of_one pow pow_annex_f). reflexivity.
Qed.

Lemma altitude_at_zero (p : float) :
  PrimFloat.eqb (p / 101325) 0 = true -> Simulator.calculate_altitude pow p = 44330.
Proof.
  intros Hz. unfold Simulator.calculate_altitude, Simulator.sea_level_pressure.
  rewrite (Libm.pow_of_zero pow pow_annex_f _ Hz). reflexivity.
Qed.

Lemma altitude_at_negative (p : float) :
  (p / 101325 <? 0) = true -> Double.finite (p / 101325) = true ->
  Simulator.calculate_altitude pow p = nan.
Proof.
  intros Hneg Hfin. unfold Simulator.calculate_altitude, Simulator.sea_level_pressure.
  rewrite (Libm.pow_of_negative pow pow_annex_f _ Hneg Hfin). reflexivity.
Qed.

Lemma altitude_at_infinity (p : float) :
  PrimFloat.is_infinity (p / 101325) = true ->
  Simulator.calculate_altitude pow p = neg_infinity.
Proof.
  intros Hinf. unfold Simulator.calculate_altitude, Simulator.sea_level_pressure.
  rewrite (Libm.pow_of_infinity pow pow_annex_f _ Hinf). reflexivity.
Qed.

Lemma altitude_at_nan (p : float) :
  p / 101325 = nan -> Simulator.calculate_altitude pow p = nan.
Proof.
  intros Hnan. unfold Simulator.calculate_altitude, Simulator.sea_level_pressure.
  rewrite Hnan, (Libm.pow_of_nan pow pow_annex_f). reflexivity.
Qed.

(** At [p <= 0] the altitude is 44330 when the quotient is a zero, and a
    NaN or minus infinity otherwise. *)
Lemma altitude_below_zero (p : float) :
  (p <=? 0) = true ->
  (PrimFloat.eqb (p / 101325) 0 = true /\ Simulator.calculate_altitude pow p = 44330) \/
  (PrimFloat.eqb (p / 101325) 0 = false /\
   Double.finite (Simulator.calculate_altitude pow p) = false).
Proof.
  intros Hp.
  destruct (quotient_shape p Hp) as [[s Hq] | [[s Hq] | [Hq | (m & e & Hq)]]].
  - destruct (zero_tests _ s Hq) as (Hz & _). left.
    split; [exact Hz | exact (altitude_at_zero p Hz)].
  - destruct (infinity_tests _ s Hq) as (Hz & Hinf). right.
    split; [exact Hz |]. rewrite (altitude_at_infinity p Hinf). reflexivity.
  - destruct (nan_tests _ Hq) as (Hnan & Hz). right.
    split; [exact Hz |]. rewrite (altitude_at_nan p Hnan). reflexivity.
  - destruct (negative_tests _ m e Hq) as (Hz & Hneg & Hfin). right.
    split; [exact Hz |]. rewrite (altitude_at_negative p Hneg Hfin). reflexivity.
Qed.

End Altitude.

End AltitudeFacts.

(** C8, amended: the altitude is [44330 * (1 - pow(p / 101325, 0.1903))];
    it is 0 at the sea-level reference; no input is rejected.  At [p <= 0]
    it is a NaN or an infinity, except when [p / 101325] is a zero: then it
    is the finite value 44330, as at [p = 0], at [p = -0] and at the
    smallest negative double.  At [p = -1] it is a NaN. *)
Theorem altitude_estimator (pow : float -> float -> float) (p : float) :
  Libm.annex_f pow ->
  (Simulator.calculate_altitude pow p
   = 44330 * (1 - pow (p / 101325) 0.1903) /\
   Simulator.calculate_altitude pow 101325 = 0 /\
   ((p <=? 0) = true ->
    (PrimFloat.eqb (p / 101325) 0 = true /\
     Simulator.calculate_altitude pow p = 44330) \/
    (PrimFloat.eqb (p / 101325) 0 = false /\
     Double.finite (Simulator.calculate_altitude pow p) = false)) /\
   Simulator.calculate_altitude pow 0 = 44330 /\
   Simulator.calculate_altitude pow (-0) = 44330 /\
   Simulator.calculate_altitude pow (-0x1p-1074) = 44330 /\
   Simulator.calculate_altitude pow (-1) = nan)%float.
Proof.
  intros Hpow. split; [reflexivity |].
  split; [exact (AltitudeFacts.altitude_at_sea_level pow Hpow) |].
  split; [exact (AltitudeFacts.altitude_below_zero pow Hpow p) |].
  split; [apply (AltitudeFacts.altitude_at_zero pow Hpow); reflexivity |].
  split; [apply (AltitudeFacts.altitude_at_zero pow Hpow); reflexivity |].
  split; [apply (AltitudeFacts.altitude_at_zero pow Hpow); reflexivity |].
  apply (AltitudeFacts.altitude_at_negative pow Hpow); reflexivity.
Qed.

Lemma altitude_estimator_witness :
  Libm.annex_f Libm.pow_fixed_cases /\
  (Simulator.calculate_altitude Libm.pow_fixed_cases 0
   = 44330 * (1 - Libm.pow_fixed_cases (0 / 101325) 0.1903) /\
   Simulator.calculate_altitude Libm.pow_fixed_cases 101325 = 0 /\
   ((0 <=? 0) = true ->
    (PrimFloat.eqb (0 / 101325) 0 = true /\
     Simulator.calculate_altitude Libm.pow_fixed_cases 0 = 44330) \/
    (PrimFloat.eqb (0 / 101325) 0 = false /\
     Double.finite (Simulator.calculate_altitude Libm.pow_fixed_cases 0) = false)) /\
   Simulator.calculate_altitude Libm.pow_fixed_cases 0 = 44330 /\
   Simulator.calculate_altitude Libm.pow_fixed_cases (-0) = 44330 /\
   Simulator.calculate_altitude Libm.pow_fixed_cases (-0x1p-1074) = 44330 /\
   Simulator.calculate_altitude Libm.pow_fixed_cases (-1) = nan)%float.
Proof.
  split; [exact AltitudeFacts.pow_fixed_cases_annex_f |].
  exact (altitude_estimator Libm.pow_fixed_cases 0%float
           AltitudeFacts.pow_fixed_cases_annex_f).
Defined.

(** C8 as stated fails: not every [p <= 0] gives a NaN or a non-finite
    altitude.  With a [pow] that conforms to Annex F, [p = 0] gives
    [pow(0, 0.1903) = 0] and the altitude 44330. *)
Lemma altitude_at_zero_pressure_is_finite :
  ~ (forall (pow : float -> float -> float) (p : float),
        Libm.annex_f pow -> (p <=? 0)%float = true ->
        Double.finite (Simulator.calculate_altitude pow p) = false).
Proof.
  intros H.
  specialize (H Libm.pow_fixed_cases 0%float AltitudeFacts.pow_fixed_cases_annex_f eq_refl).
  vm_compute in H. discriminate H.
Qed.

(** ** The binary search *)

Module SearchFacts.

Import ReverseCalc.

(** The loop with its history returns what the loop returns. *)
Lemma search_run_erase forward target tolerance fuel :
  forall low high mid calib,
    search forward target tolerance fuel low high mid calib
    = option_map (fun r => (run_result r, run_calib r))
        (search_run forward target tolerance fuel low high mid calib).
Proof.
  induction fuel as [| fuel IH]; intros low high mid calib; simpl.
  - destruct (1 <? CInt.to_uint32 (high - low)); reflexivity.
  - destruct (1 <? CInt.to_uint32 (high - low)); [| reflexivity].
    destruct (body forward target tolerance low high calib) as [m c | low' high' m c].
    + reflexivity.
    + rewrite IH.
      destruct (search_run forward target tolerance fuel low' high' (Some m) c);
        reflexivity.
Qed.


(** The midpoint of an interval of width at least 2 is strictly inside. *)
Lemma midpoint_inside low high :
  0 <= low -> 1 < high - low -> high <= adc_max ->
  CInt.to_uint32 (low + high) / 2 = (low + high) / 2 /\
  low < (low + high) / 2 < high.
Proof.
  unfold adc_max. intros Hlow Hwidth Hhigh.
  rewrite CIntFacts.to_uint32_small by lia.
  split; [reflexivity |].
  pose proof (Z.div_mod (low + high) 2 ltac:(lia)).
  pose proof (Z.mod_pos_bound (low + high) 2 ltac:(lia)). lia.
Qed.

Lemma loop_condition low high :
  0 <= low -> low < high -> high <= adc_max ->
  (1 <? CInt.to_uint32 (high - low)) = (1 <? high - low).
Proof.
  unfold adc_max. intros Hlow Hlt Hhigh.
  rewrite CIntFacts.to_uint32_small by lia. reflexivity.
Qed.

(** An iteration that does not return narrows the interval: the new one
    lies within the old one, is not empty and is strictly narrower. *)
Lemma body_narrows forward target tolerance low high calib low' high' m calib' :
  0 <= low -> 1 < high - low -> high <= adc_max ->
  body forward target tolerance low high calib = Narrow low' high' m calib' ->
  m = (low + high) / 2 /\
  low <= low' /\ low' < high' /\ high' <= high /\
  high' - low' < high - low /\
  2 * (high' - low') <= high - low + 1.
Proof.
  intros Hlow Hwidth Hhigh. unfold body.
  destruct (midpoint_inside low high Hlow Hwidth Hhigh) as [-> Hmid].
  destruct (forward ((low + high) / 2) calib) as [calc c].
  destruct (Double.fabs (calc - target) <? tolerance)%float; [discriminate |].
  assert (Hdiv : 2 * ((low + high) / 2) <= low + high < 2 * ((low + high) / 2) + 2).
  { pose proof (Z.div_mod (low + high) 2 ltac:(lia)).
    pose proof (Z.mod_pos_bound (low + high) 2 ltac:(lia)). lia. }
  destruct (calc <? target)%float; intros H; injection H as <- <- <- <-; lia.
Qed.

Lemma last_cons_default (A : Type) (l : list A) (a d : A) :
  last (a :: l) d = last l a.
Proof.
  revert a d. induction l as [| b l IH]; intros a d; [reflexivity |].
  change (last (a :: b :: l) d) with (last (b :: l) d).
  now rewrite (IH b d), (IH b a).
Qed.

Section Invariant.

Variable forward : Z -> bmp390_calib_data -> float * bmp390_calib_data.
Variables target tolerance : float.

(** The coefficients the forward function reads are those the search
    started with: it computes [value] on every structure that meets [Inv],
    and leaves such a structure behind. *)
Variable Inv : bmp390_calib_data -> Prop.
Variable value : Z -> float.
Hypothesis forward_value : forall m c, Inv c -> fst (forward m c) = value m.
Hypothesis forward_inv : forall m c, Inv c -> Inv (snd (forward m c)).

Lemma search_run_exit fuel low high mid c :
  0 <= low -> low < high -> high <= adc_max -> high - low <= 1 ->
  search_run forward target tolerance fuel low high mid c
  = Some {| run_result := mid; run_calib := c; run_visited := [];
            run_low := low; run_high := high |}.
Proof.
  intros Hlow Hlt Hhigh Hwidth.
  assert (Hcond : (1 <? CInt.to_uint32 (high - low)) = false).
  { rewrite loop_condition by assumption. apply Z.ltb_ge. lia. }
  destruct fuel; simpl; rewrite Hcond; reflexivity.
Qed.

Lemma search_run_step fuel low high mid c :
  0 <= low -> 1 < high - low -> high <= adc_max -> Inv c ->
  let m := (low + high) / 2 in
  let c' := snd (forward m c) in
  Inv c' /\
  search_run forward target tolerance (S fuel) low high mid c
  = if within_tolerance target tolerance (value m)
    then Some {| run_result := Some m; run_calib := c'; run_visited := [m];
                 run_low := low; run_high := high |}
    else if (value m <? target)%float
         then option_map (visit m)
                (search_run forward target tolerance fuel m high (Some m) c')
         else option_map (visit m)
                (search_run forward target tolerance fuel low m (Some m) c').
Proof.
  intros Hlow Hwidth Hhigh HInv m c'.
  split; [apply forward_inv; exact HInv |].
  assert (Hcond : (1 <? CInt.to_uint32 (high - low)) = true).
  { rewrite loop_condition by lia. apply Z.ltb_lt. exact Hwidth. }
  simpl. rewrite Hcond. unfold body, within_tolerance.
  destruct (midpoint_inside low high Hlow Hwidth Hhigh) as [-> _].
  fold m. subst c'. rewrite <- (forward_value m c HInv).
  destruct (forward m c) as [calc c1]. simpl.
  destruct (Double.fabs (calc - target) <? tolerance)%float; [reflexivity |].
  destruct (calc <? target)%float; reflexivity.
Qed.

Lemma search_run_spec (n : nat) :
  forall fuel low high mid c,
    (n <= fuel)%nat -> Inv c ->
    0 <= low -> low < high -> high <= adc_max -> high - low <= 2 ^ Z.of_nat n ->
    exists r,
      search_run forward target tolerance fuel low high mid c = Some r /\
      (length (run_visited r) <= n)%nat /\
      Forall (fun x => low < x < high) (run_visited r) /\
      run_result r = last (map Some (run_visited r)) mid /\
      (1 < high - low -> run_visited r <> []) /\
      ((exists pre m,
           run_visited r = pre ++ [m] /\
           Forall (fun x => within_tolerance target tolerance (value x) = false) pre /\
           within_tolerance target tolerance (value m) = true)
       \/ (Forall (fun x => within_tolerance target tolerance (value x) = false)
             (run_visited r) /\
           run_high r - run_low r = 1)).
Proof.
  induction n as [| n IH]; intros fuel low high mid c Hfuel HInv Hlow Hlt Hhigh Hwidth.
  - change (2 ^ Z.of_nat 0) with 1 in Hwidth.
    rewrite (search_run_exit fuel low high mid c) by assumption.
    eexists. split; [reflexivity |]. simpl.
    split; [lia |]. split; [constructor |]. split; [reflexivity |].
    split; [lia |]. right. split; [constructor | lia].
  - destruct (Z.le_gt_cases (high - low) 1) as [Hone | Hmore].
    + rewrite (search_run_exit fuel low high mid c) by assumption.
      eexists. split; [reflexivity |]. simpl.
      split; [lia |]. split; [constructor |]. split; [reflexivity |].
      split; [lia |]. right. split; [constructor | lia].
    + destruct fuel as [| fuel]; [lia |].
      assert (Hmore' : 1 < high - low) by lia.
      destruct (search_run_step fuel low high mid c Hlow Hmore' Hhigh HInv)
        as [HInv' ->].
      pose proof (midpoint_inside low high Hlow Hmore' Hhigh) as [_ Hmid].
      assert (Hhalf : 2 * ((low + high) / 2) <= low + high < 2 * ((low + high) / 2) + 2).
      { pose proof (Z.div_mod (low + high) 2 ltac:(lia)).
        pose proof (Z.mod_pos_bound (low + high) 2 ltac:(lia)). lia. }
      assert (Hpow : 2 ^ Z.of_nat (S n) = 2 * 2 ^ Z.of_nat n).
      { rewrite Nat2Z.inj_succ. apply Z.pow_succ_r. lia. }
      set (m := (low + high) / 2) in *.
      set (c' := snd (forward m c)) in *.
      destruct (within_tolerance target tolerance (value m)) eqn:Hw.
      * eexists. split; [reflexivity |]. simpl.
        split; [lia |]. split; [constructor; [exact Hmid | constructor] |].
        split; [reflexivity |]. split; [discriminate |].
        left. exists [], m. split; [reflexivity |]. split; [constructor | exact Hw].
      * assert (Hnext : forall low' high',
                   low <= low' -> low' < high' -> high' <= high ->
                   high' - low' <= 2 ^ Z.of_nat n ->
                   exists r,
                     option_map (visit m)
                       (search_run forward target tolerance fuel low' high' (Some m) c')
                     = Some r /\
                     (length (run_visited r) <= S n)%nat /\
                     Forall (fun x => low < x < high) (run_visited r) /\
                     run_result r = last (map Some (run_visited r)) mid /\
                     (1 < high - low -> run_visited r <> []) /\
                     ((exists pre m0,
                          run_visited r = pre ++ [m0] /\
                          Forall (fun x => within_tolerance target tolerance (value x)
                                           = false) pre /\
                          within_tolerance target tolerance (value m0) = true)
                      \/ (Forall (fun x => within_tolerance target tolerance (value x)
                                           = false) (run_visited r) /\
                          run_high r - run_low r = 1))).
        { intros low' high' Hl Hlh Hh Hw'.
          destruct (IH fuel low' high' (Some m) c') as (r & -> & Hlen & Hin & Hres & _ & Hend);
            try assumption; try lia.
          exists (visit m r). split; [reflexivity |]. simpl.
          split; [lia |].
          split.
          { constructor; [exact Hmid |].
            eapply Forall_impl; [| exact Hin]. simpl. intros x Hx. lia. }
          split.
          { rewrite Hres. symmetry. apply last_cons_default. }
          split; [discriminate |].
          destruct Hend as [(pre & m0 & Hv & Hpre & Hm0) | [Hall Hone]].
          - left. exists (m :: pre), m0. rewrite Hv.
            split; [reflexivity |]. split; [constructor; assumption | exact Hm0].
          - right. split; [constructor; assumption | exact Hone]. }
        destruct (value m <? target)%float; apply Hnext; lia.
Qed.

(** A search over the whole range [0, adc_max], with fuel for 24
    iterations. *)
Lemma full_range_run fuel c :
  (24 <= fuel)%nat -> Inv c ->
  exists r,
    search_run forward target tolerance fuel 0 adc_max None c = Some r /\
    search forward target tolerance fuel 0 adc_max None c
    = Some (run_result r, run_calib r) /\
    (length (run_visited r) <= 24)%nat /\
    Forall (fun x => 1 <= x <= 16777214) (run_visited r) /\
    bisection_outcome value target tolerance r.
Proof.
  intros Hfuel HInv.
  destruct (search_run_spec 24 fuel 0 adc_max None c Hfuel HInv)
    as (r & Hr & Hlen & Hin & Hres & Hne & Hend);
    try (unfold adc_max; simpl; lia).
  exists r. split; [exact Hr |].
  split; [rewrite search_run_erase, Hr; reflexivity |].
  split; [exact Hlen |].
  split.
  { eapply Forall_impl; [| exact Hin]. unfold adc_max. simpl. intros x Hx. lia. }
  unfold bisection_outcome.
  destruct Hend as [(pre & m & Hv & Hpre & Hm) | [Hall Hone]].
  - exists pre, m. split; [exact Hv |].
    split; [rewrite Hres, Hv, map_app; apply last_last |].
    split; [exact Hpre | left; exact Hm].
  - destruct (exists_last (Hne ltac:(unfold adc_max; lia))) as (pre & m & Hv).
    rewrite Hv in Hall. apply Forall_app in Hall. destruct Hall as [Hpre Hm].
    exists pre, m. split; [exact Hv |].
    split; [rewrite Hres, Hv, map_app; apply last_last |].
    split; [exact Hpre |]. right. split; [| exact Hone].
    inversion Hm; assumption.
Qed.

(** The midpoints the loop evaluates are those of the bisection of
    [low, high], and it returns on the interval the bisection ends with. *)
Lemma search_run_bisection (n : nat) :
  forall fuel low high mid c,
    (n <= fuel)%nat -> Inv c ->
    0 <= low -> low < high -> high <= adc_max -> high - low <= 2 ^ Z.of_nat n ->
    exists r,
      search_run forward target tolerance fuel low high mid c = Some r /\
      bisection value target tolerance low high
        (run_visited r) (run_low r) (run_high r).
Proof.
  induction n as [| n IH]; intros fuel low high mid c Hfuel HInv Hlow Hlt Hhigh Hwidth.
  - change (2 ^ Z.of_nat 0) with 1 in Hwidth.
    rewrite (search_run_exit fuel low high mid c) by assumption.
    eexists. split; [reflexivity |]. simpl. auto.
  - destruct (Z.le_gt_cases (high - low) 1) as [Hone | Hmore].
    + rewrite (search_run_exit fuel low high mid c) by assumption.
      eexists. split; [reflexivity |]. simpl. auto.
    + destruct fuel as [| fuel]; [lia |].
      assert (Hmore' : 1 < high - low) by lia.
      destruct (search_run_step fuel low high mid c Hlow Hmore' Hhigh HInv)
        as [HInv' ->].
      pose proof (midpoint_inside low high Hlow Hmore' Hhigh) as [_ Hmid].
      assert (Hhalf : 2 * ((low + high) / 2) <= low + high < 2 * ((low + high) / 2) + 2).
      { pose proof (Z.div_mod (low + high) 2 ltac:(lia)).
        pose proof (Z.mod_pos_bound (low + high) 2 ltac:(lia)). lia. }
      assert (Hpow : 2 ^ Z.of_nat (S n) = 2 * 2 ^ Z.of_nat n).
      { rewrite Nat2Z.inj_succ. apply Z.pow_succ_r. lia. }
      set (m := (low + high) / 2) in *.
      set (c' := snd (forward m c)) in *.
      destruct (within_tolerance target tolerance (value m)) eqn:Hw.
      * eexists. split; [reflexivity |]. simpl. fold m. rewrite Hw. auto.
      * destruct (value m <? target)%float eqn:Hcmp.
        -- destruct (IH fuel m high (Some m) c') as (r & -> & Hr);
             try assumption; try lia.
           exists (visit m r). split; [reflexivity |]. simpl. fold m.
           rewrite Hw, Hcmp. auto.
        -- destruct (IH fuel low m (Some m) c') as (r & -> & Hr);
             try assumption; try lia.
           exists (visit m r). split; [reflexivity |]. simpl. fold m.
           rewrite Hw, Hcmp. auto.
Qed.

End Invariant.

(** Temperature compensation reads [par_t1], [par_t2] and [par_t3] only:
    the [t_lin] it leaves behind does not change its later values. *)
Lemma temperature_value calib0 m c :
  same_coefficients c calib0 ->
  fst (compensate_temperature m c) = fst (compensate_temperature m calib0).
Proof.
  intros (H1 & H2 & H3 & _). unfold compensate_temperature. simpl.
  rewrite H1, H2, H3. reflexivity.
Qed.

Lemma temperature_keeps_coefficients calib0 m c :
  same_coefficients c calib0 ->
  same_coefficients (snd (compensate_temperature m c)) calib0.
Proof. intros H. exact H. Qed.

Lemma same_coefficients_refl c : same_coefficients c c.
Proof. unfold same_coefficients. repeat split. Qed.

Lemma temperature_search fuel target tolerance calib :
  (24 <= fuel)%nat ->
  exists r,
    search_run compensate_temperature target tolerance fuel 0 adc_max None calib
    = Some r /\
    search compensate_temperature target tolerance fuel 0 adc_max None calib
    = Some (run_result r, run_calib r) /\
    (length (run_visited r) <= 24)%nat /\
    Forall (fun x => 1 <= x <= 16777214) (run_visited r) /\
    bisection_outcome (fun m => fst (compensate_temperature m calib))
      target tolerance r.
Proof.
  intros Hfuel.
  apply (full_range_run compensate_temperature target tolerance
           (fun c => same_coefficients c calib)
           (fun m => fst (compensate_temperature m calib))).
  - intros m c. apply temperature_value.
  - intros m c. apply temperature_keeps_coefficients.
  - exact Hfuel.
  - apply same_coefficients_refl.
Qed.

Lemma pressure_search fuel target tolerance calib :
  (24 <= fuel)%nat ->
  exists r,
    search_run compensate_pressure target tolerance fuel 0 adc_max None calib
    = Some r /\
    search compensate_pressure target tolerance fuel 0 adc_max None calib
    = Some (run_result r, run_calib r) /\
    (length (run_visited r) <= 24)%nat /\
    Forall (fun x => 1 <= x <= 16777214) (run_visited r) /\
    bisection_outcome (fun m => fst (compensate_pressure m calib))
      target tolerance r.
Proof.
  intros Hfuel.
  apply (full_range_run compensate_pressure target tolerance
           (fun c => c = calib)
           (fun m => fst (compensate_pressure m calib))).
  - intros m c ->. reflexivity.
  - intros m c ->. reflexivity.
  - exact Hfuel.
  - reflexivity.
Qed.

Lemma temperature_bisection fuel target tolerance calib :
  (24 <= fuel)%nat ->
  exists r,
    search_run compensate_temperature target tolerance fuel 0 adc_max None calib
    = Some r /\
    bisection (fun m => fst (compensate_temperature m calib)) target tolerance
      0 16777215 (run_visited r) (run_low r) (run_high r).
Proof.
  intros Hfuel.
  apply (search_run_bisection compensate_temperature target tolerance
           (fun c => same_coefficients c calib)
           (fun m => fst (compensate_temperature m calib))
           (fun m c => temperature_value calib m c)
           (fun m c => temperature_keeps_coefficients calib m c)
           24 fuel 0 adc_max None calib Hfuel (same_coefficients_refl calib));
    unfold adc_max; simpl; lia.
Qed.

Lemma pressure_bisection fuel target tolerance calib :
  (24 <= fuel)%nat ->
  exists r,
    search_run compensate_pressure target tolerance fuel 0 adc_max None calib
    = Some r /\
    bisection (fun m => fst (compensate_pressure m calib)) target tolerance
      0 16777215 (run_visited r) (run_low r) (run_high r).
Proof.
  intros Hfuel.
  apply (search_run_bisection compensate_pressure target tolerance
           (fun c => c = calib)
           (fun m => fst (compensate_pressure m calib))
           (fun m c (H : c = calib) =>
              f_equal (fun d => fst (compensate_pressure m d)) H)
           (fun m c (H : c = calib) => H)
           24 fuel 0 adc_max None calib Hfuel eq_refl);
    unfold adc_max; simpl; lia.
Qed.

End SearchFacts.

(** C5: both searches, whatever the target, the tolerance and the
    coefficients, return a raw value: the last midpoint they evaluated.  No
    earlier midpoint was within tolerance ([fabs(calc - target) <
    tolerance]); either this one is, or it is not and the interval has
    narrowed to width 1.  The midpoints evaluated are those of the bisection
    of [0, 16777215]: the first is 8388607, each is [(low + high) / 2] of
    the current interval, which becomes [mid, high] when the forward value
    is below the target and [low, mid] when it is not; the search stops at
    the first midpoint within tolerance, or on an interval of width 1.
    [reverse_calc_temperature] and [reverse_calc_pressure] are the loop at
    the tolerances 0.01 and 10.0. *)
Theorem inverse_search_outcome (fuel : nat) (target tolerance : float)
    (calib : bmp390_calib_data) :
  (24 <= fuel)%nat ->
  (exists r,
      ReverseCalc.search_run ReverseCalc.compensate_temperature target tolerance
        fuel 0 ReverseCalc.adc_max None calib = Some r /\
      ReverseCalc.search ReverseCalc.compensate_temperature target tolerance
        fuel 0 ReverseCalc.adc_max None calib
      = Some (ReverseCalc.run_result r, ReverseCalc.run_calib r) /\
      ReverseCalc.bisection_outcome
        (fun m => fst (ReverseCalc.compensate_temperature m calib))
        target tolerance r /\
      ReverseCalc.bisection
        (fun m => fst (ReverseCalc.compensate_temperature m calib))
        target tolerance 0 16777215
        (ReverseCalc.run_visited r) (ReverseCalc.run_low r) (ReverseCalc.run_high r) /\
      (exists rest, ReverseCalc.run_visited r = 8388607 :: rest)) /\
  (exists r,
      ReverseCalc.search_run ReverseCalc.compensate_pressure target tolerance
        fuel 0 ReverseCalc.adc_max None calib = Some r /\
      ReverseCalc.search ReverseCalc.compensate_pressure target tolerance
        fuel 0 ReverseCalc.adc_max None calib
      = Some (ReverseCalc.run_result r, ReverseCalc.run_calib r) /\
      ReverseCalc.bisection_outcome
        (fun m => fst (ReverseCalc.compensate_pressure m calib))
        target tolerance r /\
      ReverseCalc.bisection
        (fun m => fst (ReverseCalc.compensate_pressure m calib))
        target tolerance 0 16777215
        (ReverseCalc.run_visited r) (ReverseCalc.run_low r) (ReverseCalc.run_high r) /\
      (exists rest, ReverseCalc.run_visited r = 8388607 :: rest)) /\
  ReverseCalc.reverse_calc_temperature fuel target calib
  = ReverseCalc.search ReverseCalc.compensate_temperature target 0.01
      fuel 0 ReverseCalc.adc_max None calib /\
  ReverseCalc.reverse_calc_pressure fuel target calib
  = ReverseCalc.search ReverseCalc.compensate_pressure target 10.0
      fuel 0 ReverseCalc.adc_max None calib.
Proof.
  intros Hfuel.
  assert (Hfirst : forall value r,
             ReverseCalc.bisection value target tolerance 0 16777215
               (ReverseCalc.run_visited r) (ReverseCalc.run_low r)
               (ReverseCalc.run_high r) ->
             exists rest, ReverseCalc.run_visited r = 8388607 :: rest).
  { intros value r Hb.
    destruct (ReverseCalc.run_visited r) as [| m rest]; simpl in Hb.
    - destruct Hb as [Hb _]. lia.
    - destruct Hb as (_ & -> & _). exists rest. reflexivity. }
  split.
  { destruct (SearchFacts.temperature_search fuel target tolerance calib Hfuel)
      as (r & Hrun & Hres & _ & _ & Hout).
    destruct (SearchFacts.temperature_bisection fuel target tolerance calib Hfuel)
      as (r' & Hrun' & Hbis).
    rewrite Hrun in Hrun'. injection Hrun' as <-.
    exists r. eauto 6. }
  split.
  { destruct (SearchFacts.pressure_search fuel target tolerance calib Hfuel)
      as (r & Hrun & Hres & _ & _ & Hout).
    destruct (SearchFacts.pressure_bisection fuel target tolerance calib Hfuel)
      as (r' & Hrun' & Hbis).
    rewrite Hrun in Hrun'. injection Hrun' as <-.
    exists r. eauto 6. }
  split; reflexivity.
Qed.

Lemma inverse_search_outcome_witness :
  (24 <= 24)%nat /\
  (exists r,
      ReverseCalc.search_run ReverseCalc.compensate_temperature 25 0.01
        24 0 ReverseCalc.adc_max None example_calib = Some r /\
      ReverseCalc.search ReverseCalc.compensate_temperature 25 0.01
        24 0 ReverseCalc.adc_max None example_calib
      = Some (ReverseCalc.run_result r, ReverseCalc.run_calib r) /\
      ReverseCalc.bisection_outcome
        (fun m => fst (ReverseCalc.compensate_temperature m example_calib))
        25 0.01 r /\
      ReverseCalc.bisection
        (fun m => fst (ReverseCalc.compensate_temperature m example_calib))
        25 0.01 0 16777215
        (ReverseCalc.run_visited r) (ReverseCalc.run_low r) (ReverseCalc.run_high r) /\
      (exists rest, ReverseCalc.run_visited r = 8388607 :: rest)).
Proof.
  split; [apply le_n |].
  exact (proj1 (inverse_search_outcome 24 25 0.01 example_calib (le_n 24))).
Defined.

(** C6: both searches over [0, 16777215] terminate.  An iteration that does
    not return leaves an interval inside the old one, not empty and strictly
    narrower; with fuel for 24 iterations the search returns, and the
    forward function has been evaluated at no more than 24 midpoints. *)
Theorem inverse_search_terminates (fuel : nat) (target : float)
    (calib : bmp390_calib_data) :
  (24 <= fuel)%nat ->
  (exists r,
      ReverseCalc.reverse_calc_temperature_run fuel target calib = Some r /\
      ReverseCalc.reverse_calc_temperature fuel target calib
      = Some (ReverseCalc.run_result r, ReverseCalc.run_calib r) /\
      (length (ReverseCalc.run_visited r) <= 24)%nat) /\
  (exists r,
      ReverseCalc.reverse_calc_pressure_run fuel target calib = Some r /\
      ReverseCalc.reverse_calc_pressure fuel target calib
      = Some (ReverseCalc.run_result r, ReverseCalc.run_calib r) /\
      (length (ReverseCalc.run_visited r) <= 24)%nat) /\
  (forall forward tolerance low high c low' high' m c',
      0 <= low -> 1 < high - low -> high <= ReverseCalc.adc_max ->
      ReverseCalc.body forward target tolerance low high c
      = ReverseCalc.Narrow low' high' m c' ->
      low <= low' /\ low' < high' /\ high' <= high /\ high' - low' < high - low).
Proof.
  intros Hfuel.
  split.
  { destruct (SearchFacts.temperature_search fuel target 0.01 calib Hfuel)
      as (r & Hrun & Hres & Hlen & _).
    exists r. auto. }
  split.
  { destruct (SearchFacts.pressure_search fuel target 10.0 calib Hfuel)
      as (r & Hrun & Hres & Hlen & _).
    exists r. auto. }
  intros forward tolerance low high c low' high' m c' Hlow Hwidth Hhigh Hbody.
  destruct (SearchFacts.body_narrows forward target tolerance low high c
              low' high' m c' Hlow Hwidth Hhigh Hbody)
    as (_ & H1 & H2 & H3 & H4 & _).
  auto.
Qed.

Lemma inverse_search_terminates_witness :
  (24 <= 24)%nat /\
  exists r,
    ReverseCalc.reverse_calc_temperature_run 24 25 example_calib = Some r /\
    ReverseCalc.reverse_calc_temperature 24 25 example_calib
    = Some (ReverseCalc.run_result r, ReverseCalc.run_calib r) /\
    (length (ReverseCalc.run_visited r) <= 24)%nat.
Proof.
  split; [apply le_n |].
  exact (proj1 (inverse_search_terminates 24 25 example_calib (le_n 24))).
Defined.

(** The bound 24 is reached: the target 500 degrees on the example
    coefficients takes 24 evaluations and ends at 16777214. *)
Example search_of_24_steps :
  option_map (fun r => (ReverseCalc.run_result r, length (ReverseCalc.run_visited r),
                        ReverseCalc.run_low r, ReverseCalc.run_high r))
    (ReverseCalc.reverse_calc_temperature_run 24 500 example_calib)
  = Some (Some 16777214, 24%nat, 16777214, 16777215).
Proof. vm_compute. reflexivity. Qed.

(** C10: the raw value either search returns lies strictly between the
    initial bounds, 1 <= raw <= 16777214, as does every midpoint it
    evaluates: 0 and 16777215 are never returned. *)
Theorem inverse_search_result_range (fuel : nat) (target : float)
    (calib : bmp390_calib_data) :
  (24 <= fuel)%nat ->
  (exists raw calib',
      ReverseCalc.reverse_calc_temperature fuel target calib = Some (Some raw, calib') /\
      1 <= raw <= 16777214) /\
  (exists raw calib',
      ReverseCalc.reverse_calc_pressure fuel target calib = Some (Some raw, calib') /\
      1 <= raw <= 16777214) /\
  (exists r,
      ReverseCalc.reverse_calc_temperature_run fuel target calib = Some r /\
      Forall (fun x => 1 <= x <= 16777214) (ReverseCalc.run_visited r)) /\
  (exists r,
      ReverseCalc.reverse_calc_pressure_run fuel target calib = Some r /\
      Forall (fun x => 1 <= x <= 16777214) (ReverseCalc.run_visited r)).
Proof.
  intros Hfuel.
  destruct (SearchFacts.temperature_search fuel target 0.01 calib Hfuel)
    as (rt & Hrun_t & Hres_t & _ & Hin_t & (pre_t & mt & Hv_t & Hm_t & _)).
  destruct (SearchFacts.pressure_search fuel target 10.0 calib Hfuel)
    as (rp & Hrun_p & Hres_p & _ & Hin_p & (pre_p & mp & Hv_p & Hm_p & _)).
  split.
  { exists mt, (ReverseCalc.run_calib rt).
    split; [unfold ReverseCalc.reverse_calc_temperature; rewrite Hres_t, Hm_t; reflexivity |].
    rewrite Hv_t in Hin_t. apply Forall_app in Hin_t.
    destruct Hin_t as [_ Hlast]. inversion Hlast; assumption. }
  split.
  { exists mp, (ReverseCalc.run_calib rp).
    split; [unfold ReverseCalc.reverse_calc_pressure; rewrite Hres_p, Hm_p; reflexivity |].
    rewrite Hv_p in Hin_p. apply Forall_app in Hin_p.
    destruct Hin_p as [_ Hlast]. inversion Hlast; assumption. }
  split; [exists rt | exists rp]; auto.
Qed.

Lemma inverse_search_result_range_witness :
  (24 <= 24)%nat /\
  exists raw calib',
    ReverseCalc.reverse_calc_temperature 24 25 example_calib = Some (Some raw, calib') /\
    1 <= raw <= 16777214.
Proof.
  split; [apply le_n |].
  exact (proj1 (inverse_search_result_range 24 25 example_calib (le_n 24))).
Defined.

(** The values next to the bounds are returned: 16777214 for a target
    above the range, 1 for a target below it. *)
Example search_results_next_to_the_bounds :
  option_map fst (ReverseCalc.reverse_calc_temperature 24 500 example_calib)
  = Some (Some 16777214) /\
  option_map fst (ReverseCalc.reverse_calc_temperature 24 (-500) example_calib)
  = Some (Some 1).
Proof. split; vm_compute; reflexivity. Qed.

(** ** The round trip on the example calibration *)




(** The raw values found, with the forward values the program prints. *)
Example round_trip_values :
  map (fun target =>
         option_map (fun x => (fst x, t_lin (snd x)))
           (ReverseCalc.reverse_calc_temperature 24 target example_calib))
      [-10; 0; 25; 50]%float
  = [ Some (Some 6458367, (-9.9925984720521122)%float);
      Some (Some 6867967, 0.006225966610156064%float);
      Some (Some 7890943, 24.993909410508433%float);
      Some (Some 8913919, 50.003899915065645%float) ].
Proof. vm_compute. reflexivity. Qed.

(** ** The pressure search on the example calibration *)

(** With the example coefficients and the [t_lin] of the raw temperature
    7890943 (about 25 degrees), the compensated pressure decreases as the
    raw value grows, and the search for 101325 Pa walks to the upper end:
    it returns 16777214 after 24 evaluations, where the forward value is
    below -218008 Pa. *)
Example pressure_search_on_example_calibration :
  let calib := snd (ReverseCalc.compensate_temperature 7890943 example_calib) in
  (fst (ReverseCalc.compensate_pressure 16777214 calib)
   <? fst (ReverseCalc.compensate_pressure 1 calib))%float = true /\
  option_map (fun r => (ReverseCalc.run_result r, length (ReverseCalc.run_visited r)))
    (ReverseCalc.reverse_calc_pressure_run 24 101325 calib)
  = Some (Some 16777214, 24%nat) /\
  (fst (ReverseCalc.compensate_pressure 16777214 calib) <? -218008)%float = true.
Proof. vm_compute. repeat split. Qed.

(** ** More on the forward functions *)

Module ForwardFacts.

Local Open Scope float_scope.

Lemma pow_bmp3_loop_last (n : nat) :
  forall result base,
    pow_bmp3_loop (S n) result base = pow_bmp3_loop n result base * base.
Proof.
  induction n as [| n IH]; intros result base; [reflexivity |].
  change (pow_bmp3_loop (S (S n)) result base)
    with (pow_bmp3_loop (S n) (result * base) base).
  rewrite IH. reflexivity.
Qed.

(** Structures with the same coefficients give the same temperature and are
    left equal. *)
Lemma compensate_temperature_same (m : Z) (c d : bmp390_calib_data) :
  same_coefficients c d ->
  ReverseCalc.compensate_temperature m c = ReverseCalc.compensate_temperature m d.
Proof.
  destruct c, d. unfold same_coefficients. simpl.
  intros (H1 & H2 & H3 & H4 & H5 & H6 & H7 & H8 & H9 & H10 & H11 & H12 & H13 & H14).
  subst. reflexivity.
Qed.

Lemma same_coefficients_set_t_lin (v : float) (c : bmp390_calib_data) :
  same_coefficients (set_t_lin v c) c.
Proof. unfold same_coefficients. simpl. repeat split. Qed.

End ForwardFacts.

(** [pow_bmp3] is the left-to-right product of [power] factors, started at
    1.0: it is 1 at power 0, [base] itself at power 1, and one more factor
    [base] is multiplied on the right at each step up to 255; [power] is
    taken modulo 256. *)
Theorem pow_bmp3_product (base : float) (n : nat) :
  (n < 255)%nat ->
  (pow_bmp3 base (Z.of_nat (S n)) = pow_bmp3 base (Z.of_nat n) * base)%float /\
  pow_bmp3 base 0 = 1%float /\
  pow_bmp3 base 1 = base /\
  pow_bmp3 base (Z.of_nat n + 256) = pow_bmp3 base (Z.of_nat n).
Proof.
  intros Hn. unfold pow_bmp3, CInt.to_uint8.
  split.
  { rewrite !Z.mod_small by lia. rewrite !Nat2Z.id.
    apply ForwardFacts.pow_bmp3_loop_last. }
  split; [reflexivity |].
  split; [apply DoubleFacts.mul_1_l |].
  replace (Z.of_nat n + 256) with (Z.of_nat n + 1 * 256) by lia.
  rewrite Z.mod_add by lia. reflexivity.
Qed.

Lemma pow_bmp3_product_witness :
  (3 < 255)%nat /\
  (pow_bmp3 2.5 (Z.of_nat 4) = pow_bmp3 2.5 (Z.of_nat 3) * 2.5)%float /\
  pow_bmp3 2.5 0 = 1%float /\
  pow_bmp3 2.5 1 = 2.5%float /\
  pow_bmp3 2.5 (Z.of_nat 3 + 256) = pow_bmp3 2.5 (Z.of_nat 3).
Proof.
  split; [lia |].
  exact (pow_bmp3_product 2.5%float 3 ltac:(lia)).
Defined.

(** [bmp390_get_sensor_data] of the corrected simulator pairs the two
    compensations: the pressure is computed with the [t_lin] of the
    temperature sample of the same call, which is the temperature returned;
    the [t_lin] the structure held before has no effect on the result, and
    the structure is left with its coefficients and the new [t_lin]. *)
Theorem get_sensor_data_pairs_samples (uncomp_temperature uncomp_pressure : Z)
    (calib_data : bmp390_calib_data) (stale : float) :
  let temperature :=
    fst (Simulator.bmp390_compensate_temperature uncomp_temperature calib_data) in
  Simulator.bmp390_get_sensor_data uncomp_temperature uncomp_pressure calib_data
  = ((temperature,
      fst (Simulator.bmp390_compensate_pressure uncomp_pressure
             (set_t_lin temperature calib_data))),
     set_t_lin temperature calib_data) /\
  Simulator.bmp390_get_sensor_data uncomp_temperature uncomp_pressure
    (set_t_lin stale calib_data)
  = Simulator.bmp390_get_sensor_data uncomp_temperature uncomp_pressure calib_data.
Proof. cbv zeta. split; reflexivity. Qed.

(** [bmp390_get_sensor_data] of the datasheet simulator: the pressure is
    computed with the value the temperature call of the same sample left in
    the global [t_lin] (the temperature returned is that value divided by
    100.0); the value the global held before has no effect. *)
Theorem datasheet_get_sensor_data_pairs_samples
    (uncomp_temperature uncomp_pressure : Z)
    (calib_data : Datasheet.bmp390_calib_data) (t_lin stale : float) :
  let t_lin1 :=
    snd (Datasheet.bmp390_compensate_temperature uncomp_temperature calib_data) in
  Datasheet.bmp390_get_sensor_data uncomp_temperature uncomp_pressure calib_data t_lin
  = ((t_lin1 / 100.0,
      Datasheet.bmp390_compensate_pressure uncomp_pressure calib_data t_lin1),
     t_lin1)%float /\
  Datasheet.bmp390_get_sensor_data uncomp_temperature uncomp_pressure calib_data stale
  = Datasheet.bmp390_get_sensor_data uncomp_temperature uncomp_pressure calib_data t_lin.
Proof. cbv zeta. split; reflexivity. Qed.

(** ** The structure a search leaves *)

Module SearchState.

Import ReverseCalc.

Section Invariant.

Variable forward : Z -> bmp390_calib_data -> float * bmp390_calib_data.
Variables target tolerance : float.
Variable Inv : bmp390_calib_data -> Prop.
Variable value : Z -> float.
Hypothesis forward_value : forall m c, Inv c -> fst (forward m c) = value m.
Hypothesis forward_inv : forall m c, Inv c -> Inv (snd (forward m c)).

(** A run leaves the structure it started with when it evaluated no
    midpoint, and what the forward function left at the last midpoint
    otherwise. *)
Lemma search_run_calib (n : nat) :
  forall fuel low high mid c,
    (n <= fuel)%nat -> Inv c ->
    0 <= low -> low < high -> high <= adc_max -> high - low <= 2 ^ Z.of_nat n ->
    exists r,
      search_run forward target tolerance fuel low high mid c = Some r /\
      ((run_visited r = [] /\ run_calib r = c) \/
       (exists pre m c0,
           run_visited r = pre ++ [m] /\ Inv c0 /\ run_calib r = snd (forward m c0))).
Proof.
  induction n as [| n IH]; intros fuel low high mid c Hfuel HInv Hlow Hlt Hhigh Hwidth.
  - change (2 ^ Z.of_nat 0) with 1 in Hwidth.
    rewrite (SearchFacts.search_run_exit forward target tolerance fuel low high mid c)
      by assumption.
    eexists. split; [reflexivity |]. left. split; reflexivity.
  - destruct (Z.le_gt_cases (high - low) 1) as [Hone | Hmore].
    + rewrite (SearchFacts.search_run_exit forward target tolerance fuel low high mid c)
        by assumption.
      eexists. split; [reflexivity |]. left. split; reflexivity.
    + destruct fuel as [| fuel]; [lia |].
      assert (Hmore' : 1 < high - low) by lia.
      destruct (SearchFacts.search_run_step forward target tolerance Inv value
                  forward_value forward_inv fuel low high mid c
                  Hlow Hmore' Hhigh HInv) as [HInv' ->].
      pose proof (SearchFacts.midpoint_inside low high Hlow Hmore' Hhigh) as [_ Hmid].
      assert (Hhalf : 2 * ((low + high) / 2) <= low + high < 2 * ((low + high) / 2) + 2).
      { pose proof (Z.div_mod (low + high) 2 ltac:(lia)).
        pose proof (Z.mod_pos_bound (low + high) 2 ltac:(lia)). lia. }
      assert (Hpow : 2 ^ Z.of_nat (S n) = 2 * 2 ^ Z.of_nat n).
      { rewrite Nat2Z.inj_succ. apply Z.pow_succ_r. lia. }
      set (m := (low + high) / 2) in *.
      set (c' := snd (forward m c)) in *.
      destruct (within_tolerance target tolerance (value m)).
      * eexists. split; [reflexivity |]. right. exists [], m, c.
        split; [reflexivity |]. split; [exact HInv | reflexivity].
      * assert (Hnext : forall low' high',
                   low <= low' -> low' < high' -> high' <= high ->
                   high' - low' <= 2 ^ Z.of_nat n ->
                   exists r,
                     option_map (visit m)
                       (search_run forward target tolerance fuel low' high' (Some m) c')
                     = Some r /\
                     ((run_visited r = [] /\ run_calib r = c) \/
                      (exists pre m0 c0,
                          run_visited r = pre ++ [m0] /\ Inv c0 /\
                          run_calib r = snd (forward m0 c0)))).
        { intros low' high' Hl Hlh Hh Hw'.
          destruct (IH fuel low' high' (Some m) c') as (r & -> & Hend);
            try assumption; try lia.
          exists (visit m r). split; [reflexivity |]. right. simpl.
          destruct Hend as [[Hnil Hc] | (pre & m0 & c0 & Hv & Hc0 & Hc)].
          - exists [], m, c. rewrite Hnil, Hc. auto.
          - exists (m :: pre), m0, c0. rewrite Hv. auto. }
        destruct (value m <? target)%float; apply Hnext; lia.
Qed.

(** When no forward value is within tolerance or below the target, the
    search over [0, 2^(k+1) - 1] halves downwards [k] times and ends at 1. *)
Lemma search_run_descends (k : nat) :
  (forall m, within_tolerance target tolerance (value m) = false /\
             (value m <? target)%float = false) ->
  forall fuel c,
    (k <= fuel)%nat -> Inv c -> 2 ^ (Z.of_nat k + 1) - 1 <= adc_max ->
    exists r,
      search_run forward target tolerance fuel 0 (2 ^ (Z.of_nat k + 1) - 1)
        (Some (2 ^ (Z.of_nat k + 1) - 1)) c = Some r /\
      run_result r = Some 1 /\ length (run_visited r) = k.
Proof.
  intros Hmiss.
  induction k as [| k IH]; intros fuel c Hfuel HInv Hmax.
  - change (2 ^ (Z.of_nat 0 + 1) - 1) with 1.
    rewrite (SearchFacts.search_run_exit forward target tolerance fuel 0 1 (Some 1) c)
      by (unfold adc_max; lia).
    eexists. split; [reflexivity |]. split; reflexivity.
  - destruct fuel as [| fuel]; [lia |].
    assert (Hpow : 2 ^ (Z.of_nat (S k) + 1) = 2 * 2 ^ (Z.of_nat k + 1)).
    { rewrite Nat2Z.inj_succ. replace (Z.succ (Z.of_nat k) + 1)
        with (Z.succ (Z.of_nat k + 1)) by lia. apply Z.pow_succ_r. lia. }
    assert (Hpos : 2 <= 2 ^ (Z.of_nat k + 1)).
    { change 2 with (2 ^ 1) at 1. apply Z.pow_le_mono_r; lia. }
    rewrite Hpow in *.
    assert (Hmid : (0 + (2 * 2 ^ (Z.of_nat k + 1) - 1)) / 2 = 2 ^ (Z.of_nat k + 1) - 1).
    { symmetry. apply (Z.div_unique _ 2 _ 1); lia. }
    destruct (SearchFacts.search_run_step forward target tolerance Inv value
                forward_value forward_inv fuel 0 (2 * 2 ^ (Z.of_nat k + 1) - 1)
                (Some (2 * 2 ^ (Z.of_nat k + 1) - 1)) c)
      as [HInv' ->]; try lia; try assumption.
    rewrite Hmid.
    destruct (Hmiss (2 ^ (Z.of_nat k + 1) - 1)) as [-> ->].
    destruct (IH fuel (snd (forward (2 ^ (Z.of_nat k + 1) - 1) c)))
      as (r & -> & Hres & Hlen); try lia.
    { rewrite <- Hmid. exact HInv'. }
    eexists. split; [reflexivity |]. simpl. split; [exact Hres | now rewrite Hlen].
Qed.

(** The same from the initial interval [0, adc_max], where [mid] is not
    yet set: 23 evaluations. *)
Lemma full_range_descends fuel c :
  (forall m, within_tolerance target tolerance (value m) = false /\
             (value m <? target)%float = false) ->
  (23 <= fuel)%nat -> Inv c ->
  exists r,
    search_run forward target tolerance fuel 0 adc_max None c = Some r /\
    run_result r = Some 1 /\ length (run_visited r) = 23%nat.
Proof.
  intros Hmiss Hfuel HInv.
  destruct fuel as [| fuel]; [lia |].
  destruct (SearchFacts.search_run_step forward target tolerance Inv value
              forward_value forward_inv fuel 0 adc_max None c)
    as [HInv' ->]; try (unfold adc_max; lia); try assumption.
  change ((0 + adc_max) / 2) with (2 ^ (Z.of_nat 22 + 1) - 1) in *.
  destruct (Hmiss (2 ^ (Z.of_nat 22 + 1) - 1)) as [-> ->].
  destruct (search_run_descends 22 Hmiss fuel
              (snd (forward (2 ^ (Z.of_nat 22 + 1) - 1) c)))
    as (r & -> & Hres & Hlen); try lia; try assumption.
  { unfold adc_max. simpl. lia. }
  eexists. split; [reflexivity |]. simpl. split; [exact Hres | now rewrite Hlen].
Qed.

End Invariant.

End SearchState.

(** ** The searches as [main] uses them *)

Module ReverseMain.

Import ReverseCalc.

Local Open Scope float_scope.

(** The temperature search leaves the structure as the forward call at the
    returned raw value leaves the initial one. *)
Lemma temperature_state fuel target tolerance calib :
  (24 <= fuel)%nat ->
  exists raw,
    search compensate_temperature target tolerance fuel 0 adc_max None calib
    = Some (Some raw, snd (compensate_temperature raw calib)).
Proof.
  intros Hfuel.
  destruct (SearchFacts.temperature_search fuel target tolerance calib Hfuel)
    as (r & Hrun & Hres & _ & _ & (pre & m & Hv & Hm & _)).
  destruct (SearchState.search_run_calib compensate_temperature target tolerance
              (fun c => same_coefficients c calib)
              (fun x => fst (compensate_temperature x calib))
              (fun x c => SearchFacts.temperature_value calib x c)
              (fun x c => SearchFacts.temperature_keeps_coefficients calib x c)
              24 fuel 0 adc_max None calib Hfuel
              (SearchFacts.same_coefficients_refl calib))
    as (r' & Hrun' & Hend); try (unfold adc_max; simpl; lia).
  rewrite Hrun in Hrun'. injection Hrun' as <-.
  exists m. rewrite Hres, Hm. do 2 f_equal.
  destruct Hend as [[Hnil _] | (pre' & m' & c0 & Hv' & Hc0 & Hc)].
  - rewrite Hv in Hnil. destruct pre; discriminate Hnil.
  - rewrite Hv in Hv'. apply app_inj_tail in Hv'. destruct Hv' as [_ <-].
    rewrite Hc. now rewrite (ForwardFacts.compensate_temperature_same m c0 calib Hc0).
Qed.

(** The pressure search leaves the structure as it was. *)
Lemma pressure_state fuel target tolerance calib :
  (24 <= fuel)%nat ->
  exists raw,
    search compensate_pressure target tolerance fuel 0 adc_max None calib
    = Some (Some raw, calib).
Proof.
  intros Hfuel.
  destruct (SearchFacts.pressure_search fuel target tolerance calib Hfuel)
    as (r & Hrun & Hres & _ & _ & (pre & m & Hv & Hm & _)).
  destruct (SearchState.search_run_calib compensate_pressure target tolerance
              (fun c => c = calib)
              (fun x => fst (compensate_pressure x calib))
              (fun x c (H : c = calib) => f_equal (fun d => fst (compensate_pressure x d)) H)
              (fun x c (H : c = calib) => H)
              24 fuel 0 adc_max None calib Hfuel eq_refl)
    as (r' & Hrun' & Hend); try (unfold adc_max; simpl; lia).
  rewrite Hrun in Hrun'. injection Hrun' as <-.
  exists m. rewrite Hres, Hm. do 2 f_equal.
  destruct Hend as [[_ Hc] | (pre' & m' & c0 & _ & Hc0 & Hc)].
  - exact Hc.
  - rewrite Hc, Hc0. reflexivity.
Qed.

(** Once the loop is entered, a search on two structures with the same
    coefficients runs the same. *)
Lemma temperature_search_same target tolerance fuel low high mid1 mid2 c d :
  same_coefficients c d ->
  (1 <? CInt.to_uint32 (high - low))%Z = true ->
  search compensate_temperature target tolerance fuel low high mid1 c
  = search compensate_temperature target tolerance fuel low high mid2 d.
Proof.
  intros Hsame Hcond. destruct fuel as [| fuel]; simpl; rewrite Hcond; [reflexivity |].
  unfold body.
  rewrite (ForwardFacts.compensate_temperature_same _ c d Hsame). reflexivity.
Qed.

(** Comparisons with a NaN target all fail. *)
Lemma nan_target_misses (tolerance calc : float) :
  within_tolerance nan tolerance calc = false /\ (calc <? nan) = false.
Proof.
  unfold within_tolerance, Double.fabs.
  assert (Hsub : calc - nan = nan).
  { apply Prim2SF_inj. rewrite FloatAxioms.sub_spec.
    change (Prim2SF nan) with S754_nan.
    destruct (Prim2SF calc); reflexivity. }
  rewrite Hsub. change (abs nan) with nan.
  rewrite !FloatAxioms.ltb_spec. change (Prim2SF nan) with S754_nan.
  split; [reflexivity |].
  unfold SFltb. destruct (Prim2SF calc); reflexivity.
Qed.

End ReverseMain.

(** After [reverse_calc_temperature] the structure holds its coefficients
    and, in [t_lin], the compensated temperature of the raw value returned;
    [reverse_calc_pressure] leaves the structure as it was. *)
Theorem searches_leave_structure (fuel : nat) (target : float)
    (calib : bmp390_calib_data) :
  (24 <= fuel)%nat ->
  (exists raw,
      ReverseCalc.reverse_calc_temperature fuel target calib
      = Some (Some raw,
              set_t_lin (fst (ReverseCalc.compensate_temperature raw calib)) calib)) /\
  (exists raw,
      ReverseCalc.reverse_calc_pressure fuel target calib = Some (Some raw, calib)).
Proof.
  intros Hfuel. split.
  - exact (ReverseMain.temperature_state fuel target 0.01 calib Hfuel).
  - exact (ReverseMain.pressure_state fuel target 10.0 calib Hfuel).
Qed.

Lemma searches_leave_structure_witness :
  (24 <= 24)%nat /\
  (exists raw,
      ReverseCalc.reverse_calc_temperature 24 25 example_calib
      = Some (Some raw,
              set_t_lin (fst (ReverseCalc.compensate_temperature raw example_calib))
                example_calib)) /\
  (exists raw,
      ReverseCalc.reverse_calc_pressure 24 101325 example_calib
      = Some (Some raw, example_calib)).
Proof.
  split; [apply le_n |].
  split.
  - exact (proj1 (searches_leave_structure 24 25 example_calib (le_n 24))).
  - exact (proj2 (searches_leave_structure 24 101325 example_calib (le_n 24))).
Defined.

(** One test case of [main]: both searches return, the pressure search
    runs on the [t_lin] of the raw temperature just found, and the two
    verification values printed are the forward values at the raw values
    returned, the pressure one on that same [t_lin]. *)
Theorem reverse_case_verifies_search (fuel : nat) (temperature_c pressure_pa : float)
    (calib : bmp390_calib_data) :
  (24 <= fuel)%nat ->
  exists temp_adc press_adc,
    let calib1 := snd (ReverseCalc.compensate_temperature temp_adc calib) in
    ReverseCalc.reverse_calc_temperature fuel temperature_c calib
    = Some (Some temp_adc, calib1) /\
    ReverseCalc.reverse_calc_pressure fuel pressure_pa calib1
    = Some (Some press_adc, calib1) /\
    ReverseCalc.reverse_case fuel temperature_c pressure_pa calib
    = Some ((temp_adc, press_adc,
             fst (ReverseCalc.compensate_temperature temp_adc calib),
             fst (ReverseCalc.compensate_pressure press_adc calib1)),
            calib1).
Proof.
  intros Hfuel.
  destruct (ReverseMain.temperature_state fuel temperature_c 0.01 calib Hfuel)
    as (temp_adc & Ht).
  destruct (ReverseMain.pressure_state fuel pressure_pa 10.0
              (snd (ReverseCalc.compensate_temperature temp_adc calib)) Hfuel)
    as (press_adc & Hp).
  exists temp_adc, press_adc. cbv zeta.
  split; [exact Ht |]. split; [exact Hp |].
  unfold ReverseCalc.reverse_case, ReverseCalc.reverse_calc_temperature,
    ReverseCalc.reverse_calc_pressure.
  rewrite Ht, Hp. reflexivity.
Qed.

Lemma reverse_case_verifies_search_witness :
  (24 <= 24)%nat /\
  exists temp_adc press_adc,
    let calib1 := snd (ReverseCalc.compensate_temperature temp_adc example_calib) in
    ReverseCalc.reverse_calc_temperature 24 25 example_calib
    = Some (Some temp_adc, calib1) /\
    ReverseCalc.reverse_calc_pressure 24 101325 calib1
    = Some (Some press_adc, calib1) /\
    ReverseCalc.reverse_case 24 25 101325 example_calib
    = Some ((temp_adc, press_adc,
             fst (ReverseCalc.compensate_temperature temp_adc example_calib),
             fst (ReverseCalc.compensate_pressure press_adc calib1)),
            calib1).
Proof.
  split; [apply le_n |].
  exact (reverse_case_verifies_search 24 25 101325 example_calib (le_n 24)).
Defined.

(** The test cases of [main] do not interfere: whatever [t_lin] an earlier
    case left in the structure, [reverse_calc_temperature] and the whole
    case give the same results and leave the same structure. *)
Theorem reverse_case_ignores_stale_t_lin (fuel : nat) (temperature_c pressure_pa : float)
    (calib : bmp390_calib_data) (stale : float) :
  ReverseCalc.reverse_calc_temperature fuel temperature_c (set_t_lin stale calib)
  = ReverseCalc.reverse_calc_temperature fuel temperature_c calib /\
  ReverseCalc.reverse_case fuel temperature_c pressure_pa (set_t_lin stale calib)
  = ReverseCalc.reverse_case fuel temperature_c pressure_pa calib.
Proof.
  assert (H : ReverseCalc.reverse_calc_temperature fuel temperature_c
                (set_t_lin stale calib)
              = ReverseCalc.reverse_calc_temperature fuel temperature_c calib).
  { apply ReverseMain.temperature_search_same.
    - apply ForwardFacts.same_coefficients_set_t_lin.
    - reflexivity. }
  split; [exact H |].
  unfold ReverseCalc.reverse_case. rewrite H. reflexivity.
Qed.

(** A NaN target: every comparison of the loop fails, the interval is
    halved downwards at each step, and both searches return 1 after 23
    evaluations, whatever the coefficients. *)
Theorem nan_target_returns_one (fuel : nat) (calib : bmp390_calib_data) :
  (23 <= fuel)%nat ->
  (exists r,
      ReverseCalc.reverse_calc_temperature_run fuel nan calib = Some r /\
      ReverseCalc.run_result r = Some 1 /\
      length (ReverseCalc.run_visited r) = 23%nat /\
      option_map fst (ReverseCalc.reverse_calc_temperature fuel nan calib)
      = Some (Some 1)) /\
  (exists r,
      ReverseCalc.reverse_calc_pressure_run fuel nan calib = Some r /\
      ReverseCalc.run_result r = Some 1 /\
      length (ReverseCalc.run_visited r) = 23%nat /\
      option_map fst (ReverseCalc.reverse_calc_pressure fuel nan calib)
      = Some (Some 1)).
Proof.
  intros Hfuel. split.
  - destruct (SearchState.full_range_descends ReverseCalc.compensate_temperature
                nan 0.01 (fun c => same_coefficients c calib)
                (fun x => fst (ReverseCalc.compensate_temperature x calib))
                (fun x c => SearchFacts.temperature_value calib x c)
                (fun x c => SearchFacts.temperature_keeps_coefficients calib x c)
                fuel calib (fun m => ReverseMain.nan_target_misses _ _) Hfuel
                (SearchFacts.same_coefficients_refl calib))
      as (r & Hrun & Hres & Hlen).
    exists r. split; [exact Hrun |]. split; [exact Hres |]. split; [exact Hlen |].
    unfold ReverseCalc.reverse_calc_temperature.
    rewrite SearchFacts.search_run_erase, Hrun. simpl. now rewrite Hres.
  - destruct (SearchState.full_range_descends ReverseCalc.compensate_pressure
                nan 10.0 (fun c => c = calib)
                (fun x => fst (ReverseCalc.compensate_pressure x calib))
                (fun x c (H : c = calib) =>
                   f_equal (fun d => fst (ReverseCalc.compensate_pressure x d)) H)
                (fun x c (H : c = calib) => H)
                fuel calib (fun m => ReverseMain.nan_target_misses _ _) Hfuel eq_refl)
      as (r & Hrun & Hres & Hlen).
    exists r. split; [exact Hrun |]. split; [exact Hres |]. split; [exact Hlen |].
    unfold ReverseCalc.reverse_calc_pressure.
    rewrite SearchFacts.search_run_erase, Hrun. simpl. now rewrite Hres.
Qed.

Lemma nan_target_returns_one_witness :
  (23 <= 23)%nat /\
  exists r,
    ReverseCalc.reverse_calc_temperature_run 23 nan example_calib = Some r /\
    ReverseCalc.run_result r = Some 1 /\
    length (ReverseCalc.run_visited r) = 23%nat /\
    option_map fst (ReverseCalc.reverse_calc_temperature 23 nan example_calib)
    = Some (Some 1).
Proof.
  split; [apply le_n |].
  exact (proj1 (nan_target_returns_one 23 example_calib (le_n 23))).
Defined.

(** ** The interval a search ends with *)

Module SearchBracket.

Import ReverseCalc.

Section Invariant.

Variable forward : Z -> bmp390_calib_data -> float * bmp390_calib_data.
Variables target tolerance : float.
Variable Inv : bmp390_calib_data -> Prop.
Variable value : Z -> float.
Hypothesis forward_value : forall m c, Inv c -> fst (forward m c) = value m.
Hypothesis forward_inv : forall m c, Inv c -> Inv (snd (forward m c)).

(** [low] is 0 or a raw value whose forward value is below the target;
    [high] is [adc_max] or a raw value whose forward value is not. *)
Lemma search_run_brackets (n : nat) :
  forall fuel low high mid c,
    (n <= fuel)%nat -> Inv c ->
    0 <= low -> low < high -> high <= adc_max -> high - low <= 2 ^ Z.of_nat n ->
    (low = 0 \/ (value low <? target)%float = true) ->
    (high = adc_max \/ (value high <? target)%float = false) ->
    (1 < high - low \/ mid = Some low \/ mid = Some high) ->
    exists r,
      search_run forward target tolerance fuel low high mid c = Some r /\
      (low <= run_low r /\ run_low r < run_high r /\ run_high r <= high) /\
      (run_low r = 0 \/ (value (run_low r) <? target)%float = true) /\
      (run_high r = adc_max \/ (value (run_high r) <? target)%float = false) /\
      (run_high r - run_low r = 1 ->
       run_result r = Some (run_low r) \/ run_result r = Some (run_high r)).
Proof.
  induction n as [| n IH];
    intros fuel low high mid c Hfuel HInv Hlow Hlt Hhigh Hwidth Hbelow Habove Hmid.
  - change (2 ^ Z.of_nat 0) with 1 in Hwidth.
    rewrite (SearchFacts.search_run_exit forward target tolerance fuel low high mid c)
      by assumption.
    eexists. split; [reflexivity |]. simpl.
    split; [lia |]. split; [exact Hbelow |]. split; [exact Habove |].
    intros _. destruct Hmid as [Hmid | Hmid]; [lia | exact Hmid].
  - destruct (Z.le_gt_cases (high - low) 1) as [Hone | Hmore].
    + rewrite (SearchFacts.search_run_exit forward target tolerance fuel low high mid c)
        by assumption.
      eexists. split; [reflexivity |]. simpl.
      split; [lia |]. split; [exact Hbelow |]. split; [exact Habove |].
      intros _. destruct Hmid as [Hmid | Hmid]; [lia | exact Hmid].
    + destruct fuel as [| fuel]; [lia |].
      assert (Hmore' : 1 < high - low) by lia.
      destruct (SearchFacts.search_run_step forward target tolerance Inv value
                  forward_value forward_inv fuel low high mid c
                  Hlow Hmore' Hhigh HInv) as [HInv' ->].
      pose proof (SearchFacts.midpoint_inside low high Hlow Hmore' Hhigh) as [_ Hin].
      assert (Hhalf : 2 * ((low + high) / 2) <= low + high < 2 * ((low + high) / 2) + 2).
      { pose proof (Z.div_mod (low + high) 2 ltac:(lia)).
        pose proof (Z.mod_pos_bound (low + high) 2 ltac:(lia)). lia. }
      assert (Hpow : 2 ^ Z.of_nat (S n) = 2 * 2 ^ Z.of_nat n).
      { rewrite Nat2Z.inj_succ. apply Z.pow_succ_r. lia. }
      set (m := (low + high) / 2) in *.
      set (c' := snd (forward m c)) in *.
      destruct (within_tolerance target tolerance (value m)).
      * eexists. split; [reflexivity |]. simpl.
        split; [lia |]. split; [exact Hbelow |]. split; [exact Habove |]. lia.
      * destruct (value m <? target)%float eqn:Hcmp.
        -- destruct (IH fuel m high (Some m) c')
             as (r & -> & Hrange & Hb & Ha & Hres); try assumption; try lia; auto.
           exists (visit m r). split; [reflexivity |]. simpl.
           split; [lia |]. auto.
        -- destruct (IH fuel low m (Some m) c')
             as (r & -> & Hrange & Hb & Ha & Hres); try assumption; try lia; auto.
           exists (visit m r). split; [reflexivity |]. simpl.
           split; [lia |]. auto.
Qed.

End Invariant.

End SearchBracket.

(** When a search ends on an interval of width 1 (it met no midpoint within
    tolerance), the raw value returned is one end of that interval
    [low, low + 1]; the forward value at [low] is below the target unless
    [low] is 0, and the forward value at [low + 1] is not below the target
    unless [low + 1] is 16777215.  This holds of the interval at any
    return. *)
Theorem search_ends_on_a_crossing (fuel : nat) (target : float)
    (calib : bmp390_calib_data) :
  (24 <= fuel)%nat ->
  (exists r,
      ReverseCalc.reverse_calc_temperature_run fuel target calib = Some r /\
      (0 <= ReverseCalc.run_low r /\
       ReverseCalc.run_low r < ReverseCalc.run_high r /\
       ReverseCalc.run_high r <= 16777215) /\
      (ReverseCalc.run_low r = 0 \/
       (fst (ReverseCalc.compensate_temperature (ReverseCalc.run_low r) calib)
        <? target)%float = true) /\
      (ReverseCalc.run_high r = 16777215 \/
       (fst (ReverseCalc.compensate_temperature (ReverseCalc.run_high r) calib)
        <? target)%float = false) /\
      (ReverseCalc.run_high r - ReverseCalc.run_low r = 1 ->
       ReverseCalc.run_result r = Some (ReverseCalc.run_low r) \/
       ReverseCalc.run_result r = Some (ReverseCalc.run_high r))) /\
  (exists r,
      ReverseCalc.reverse_calc_pressure_run fuel target calib = Some r /\
      (0 <= ReverseCalc.run_low r /\
       ReverseCalc.run_low r < ReverseCalc.run_high r /\
       ReverseCalc.run_high r <= 16777215) /\
      (ReverseCalc.run_low r = 0 \/
       (fst (ReverseCalc.compensate_pressure (ReverseCalc.run_low r) calib)
        <? target)%float = true) /\
      (ReverseCalc.run_high r = 16777215 \/
       (fst (ReverseCalc.compensate_pressure (ReverseCalc.run_high r) calib)
        <? target)%float = false) /\
      (ReverseCalc.run_high r - ReverseCalc.run_low r = 1 ->
       ReverseCalc.run_result r = Some (ReverseCalc.run_low r) \/
       ReverseCalc.run_result r = Some (ReverseCalc.run_high r))).
Proof.
  intros Hfuel. split.
  - apply (SearchBracket.search_run_brackets ReverseCalc.compensate_temperature
             target 0.01 (fun c => same_coefficients c calib)
             (fun x => fst (ReverseCalc.compensate_temperature x calib))
             (fun x c => SearchFacts.temperature_value calib x c)
             (fun x c => SearchFacts.temperature_keeps_coefficients calib x c)
             24 fuel 0 ReverseCalc.adc_max None calib Hfuel
             (SearchFacts.same_coefficients_refl calib));
      try (unfold ReverseCalc.adc_max; simpl; lia); auto.
  - apply (SearchBracket.search_run_brackets ReverseCalc.compensate_pressure
             target 10.0 (fun c => c = calib)
             (fun x => fst (ReverseCalc.compensate_pressure x calib))
             (fun x c (H : c = calib) =>
                f_equal (fun d => fst (ReverseCalc.compensate_pressure x d)) H)
             (fun x c (H : c = calib) => H)
             24 fuel 0 ReverseCalc.adc_max None calib Hfuel eq_refl);
      try (unfold ReverseCalc.adc_max; simpl; lia); auto.
Qed.

Lemma search_ends_on_a_crossing_witness :
  (24 <= 24)%nat /\
  exists r,
    ReverseCalc.reverse_calc_temperature_run 24 25 example_calib = Some r /\
    (0 <= ReverseCalc.run_low r /\
     ReverseCalc.run_low r < ReverseCalc.run_high r /\
     ReverseCalc.run_high r <= 16777215) /\
    (ReverseCalc.run_low r = 0 \/
     (fst (ReverseCalc.compensate_temperature (ReverseCalc.run_low r) example_calib)
      <? 25)%float = true) /\
    (ReverseCalc.run_high r = 16777215 \/
     (fst (ReverseCalc.compensate_temperature (ReverseCalc.run_high r) example_calib)
      <? 25)%float = false) /\
    (ReverseCalc.run_high r - ReverseCalc.run_low r = 1 ->
     ReverseCalc.run_result r = Some (ReverseCalc.run_low r) \/
     ReverseCalc.run_result r = Some (ReverseCalc.run_high r)).
Proof.
  split; [apply le_n |].
  exact (proj1 (search_ends_on_a_crossing 24 25 example_calib (le_n 24))).
Defined.

(** ** The LED driver *)

Module GpioFacts.

Import Ascii.
Import Gpio.

Lemma pin_app (a b : list kcall) (level : option Z) :
  pin (a ++ b) level = pin b (pin a level).
Proof.
  revert level. induction a as [| c a IH]; intros level; [reflexivity |].
  destruct c; simpl; apply IH.
Qed.

Lemma write_cases (ubuf : option ascii) (bufsize s : Z) :
  exists calls,
    desd_led_write ubuf bufsize s = (bufsize, last_command [(ubuf, bufsize)] s, calls) /\
    ((calls = [] /\ last_command [(ubuf, bufsize)] s = s) \/
     (calls = [gpio_set_value (last_command [(ubuf, bufsize)] s)] /\
      (last_command [(ubuf, bufsize)] s = 0 \/ last_command [(ubuf, bufsize)] s = 1))).
Proof.
  unfold desd_led_write. simpl.
  destruct ubuf as [b |]; simpl.
  - destruct (Ascii.eqb b "1"); [eexists; split; [reflexivity | auto] |].
    destruct (Ascii.eqb b "0"); eexists; (split; [reflexivity | auto]).
  - eexists; split; [reflexivity | auto].
Qed.

Lemma last_command_cons (w : option ascii * Z) ws s :
  last_command (w :: ws) s = last_command ws (last_command [w] s).
Proof.
  destruct w as [[b |] n]; simpl; [| reflexivity].
  destruct (Ascii.eqb b "1"); [reflexivity |].
  destruct (Ascii.eqb b "0"); reflexivity.
Qed.

(** The state after a sequence of writes, and the level of the pin, from
    a state 0 or 1 the pin is at. *)
Lemma writes_state (ws : list (option ascii * Z)) :
  forall s before,
    (s = 0 \/ s = 1) -> pin before None = Some s ->
    fst (writes ws s) = last_command ws s /\
    (fst (writes ws s) = 0 \/ fst (writes ws s) = 1) /\
    pin (before ++ snd (writes ws s)) None = Some (fst (writes ws s)).
Proof.
  induction ws as [| [ubuf bufsize] ws IH]; intros s before Hs Hpin.
  - simpl. rewrite app_nil_r. auto.
  - rewrite last_command_cons.
    change (writes ((ubuf, bufsize) :: ws) s)
      with (let '(_, s', calls) := desd_led_write ubuf bufsize s in
            let (s'', calls') := writes ws s' in (s'', calls ++ calls')).
    destruct (write_cases ubuf bufsize s) as (calls & -> & Hcases).
    set (s' := last_command [(ubuf, bufsize)] s) in *.
    assert (Hnext : (s' = 0 \/ s' = 1) /\ pin (before ++ calls) None = Some s').
    { rewrite pin_app, Hpin.
      destruct Hcases as [[-> ->] | [-> H]]; simpl; auto. }
    destruct Hnext as [Hs01 Hpin'].
    destruct (IH s' (before ++ calls) Hs01 Hpin') as (H1 & H2 & H3).
    destruct (writes ws s') as [s'' calls']. simpl in *.
    rewrite app_assoc. auto.
Qed.

(** The calls of [desd_led_init] are those of [Gpio.setup], in order, up
    to the first one whose answer fails the test made on it.  When a call
    fails, [desd_led_init] stops there and releases what the calls that
    passed had acquired, the most recent first, and nothing else; when none
    fails, the calls are all of [Gpio.setup], nothing is released and 0 is
    returned.  [desd_led_exit] releases what a full setup acquired, in the
    same order. *)
Theorem init_undoes_what_it_did (k : kernel) (led_state : Z) :
  (exists done rest,
      setup led_state = done ++ rest /\
      Forall (fun c => passed k c = true) done /\
      ((rest = [] /\ desd_led_init k led_state = (0, done)) \/
       (exists failed rest',
           rest = failed :: rest' /\
           passed k failed = false /\
           snd (desd_led_init k led_state) = done ++ failed :: undo done))) /\
  desd_led_exit = undo (setup led_state).
Proof.
  split; [| reflexivity].
  unfold desd_led_init.
  destruct (alloc_chrdev_region_ret k <? 0) eqn:Halloc.
  { exists (firstn 0 (setup led_state)), (skipn 0 (setup led_state)).
    split; [reflexivity |]. split; [constructor |].
    right. eexists. eexists. split; [reflexivity |].
    split; [simpl; now rewrite Halloc | reflexivity]. }
  destruct (class_create_is_err k) eqn:Hclass.
  { exists (firstn 1 (setup led_state)), (skipn 1 (setup led_state)).
    split; [reflexivity |].
    split; [repeat constructor; simpl; now rewrite ?Halloc |].
    right. eexists. eexists. split; [reflexivity |].
    split; [simpl; now rewrite Hclass | reflexivity]. }
  destruct (device_create_is_err k) eqn:Hdevice.
  { exists (firstn 2 (setup led_state)), (skipn 2 (setup led_state)).
    split; [reflexivity |].
    split; [repeat constructor; simpl; now rewrite ?Halloc, ?Hclass |].
    right. eexists. eexists. split; [reflexivity |].
    split; [simpl; now rewrite Hdevice | reflexivity]. }
  destruct (cdev_add_ret k <? 0) eqn:Hcdev.
  { exists (firstn 4 (setup led_state)), (skipn 4 (setup led_state)).
    split; [reflexivity |].
    split; [repeat constructor; simpl; now rewrite ?Halloc, ?Hclass, ?Hdevice |].
    right. eexists. eexists. split; [reflexivity |].
    split; [simpl; now rewrite Hcdev | reflexivity]. }
  destruct (gpio_is_valid_ret k) eqn:Hvalid; simpl.
  2:{ exists (firstn 5 (setup led_state)), (skipn 5 (setup led_state)).
      split; [reflexivity |].
      split; [repeat constructor; simpl;
              now rewrite ?Halloc, ?Hclass, ?Hdevice, ?Hcdev |].
      right. eexists. eexists. split; [reflexivity |].
      split; [exact Hvalid | reflexivity]. }
  destruct (gpio_request_ret k =? 0) eqn:Hrequest; simpl.
  2:{ exists (firstn 6 (setup led_state)), (skipn 6 (setup led_state)).
      split; [reflexivity |].
      split; [repeat constructor; simpl;
              now rewrite ?Halloc, ?Hclass, ?Hdevice, ?Hcdev, ?Hvalid |].
      right. eexists. eexists. split; [reflexivity |].
      split; [exact Hrequest | reflexivity]. }
  destruct (gpio_direction_output_ret k =? 0) eqn:Hdirection; simpl.
  2:{ exists (firstn 7 (setup led_state)), (skipn 7 (setup led_state)).
      split; [reflexivity |].
      split; [repeat constructor; simpl;
              now rewrite ?Halloc, ?Hclass, ?Hdevice, ?Hcdev, ?Hvalid, ?Hrequest |].
      right. eexists. eexists. split; [reflexivity |].
      split; [exact Hdirection | reflexivity]. }
  exists (setup led_state), []. split; [now rewrite app_nil_r |].
  split; [repeat constructor; simpl;
          now rewrite ?Halloc, ?Hclass, ?Hdevice, ?Hcdev, ?Hvalid, ?Hrequest,
            ?Hdirection |].
  left. split; reflexivity.
Qed.

(** [desd_led_init] returns 0 in two cases: every step succeeded, or the
    first five calls succeeded and [gpio_is_valid] said no.  In the second
    case everything set up has been released (the cdev, the device, the
    class, the device number) and the pin was never requested. *)
Theorem init_returns_zero (k : kernel) (led_state : Z) :
  (fst (desd_led_init k led_state) = 0 <->
   0 <= alloc_chrdev_region_ret k /\
   class_create_is_err k = false /\
   device_create_is_err k = false /\
   0 <= cdev_add_ret k /\
   (gpio_is_valid_ret k = false \/
    (gpio_request_ret k = 0 /\ gpio_direction_output_ret k = 0))) /\
  (0 <= alloc_chrdev_region_ret k ->
   class_create_is_err k = false ->
   device_create_is_err k = false ->
   0 <= cdev_add_ret k ->
   gpio_is_valid_ret k = false ->
   desd_led_init k led_state
   = (0, [alloc_chrdev_region; class_create; device_create; cdev_init; cdev_add;
          gpio_is_valid;
          cdev_del; device_destroy; class_destroy; unregister_chrdev_region])).
Proof.
  unfold desd_led_init. split.
  - destruct (Z.ltb_spec (alloc_chrdev_region_ret k) 0) as [Ha | Ha]; simpl.
    { split; [lia | intros (H & _); lia]. }
    destruct (class_create_is_err k); simpl.
    { split; [lia | intros (_ & H & _); discriminate H]. }
    destruct (device_create_is_err k); simpl.
    { split; [lia | intros (_ & _ & H & _); discriminate H]. }
    destruct (Z.ltb_spec (cdev_add_ret k) 0) as [Hc | Hc]; simpl.
    { split; [lia | intros (_ & _ & _ & H & _); lia]. }
    destruct (gpio_is_valid_ret k); simpl; [| tauto].
    destruct (Z.eqb_spec (gpio_request_ret k) 0) as [Hr | Hr]; simpl.
    2:{ split; [intros H; contradiction |].
        intros (_ & _ & _ & _ & [H | [H _]]); [discriminate H | contradiction]. }
    destruct (Z.eqb_spec (gpio_direction_output_ret k) 0) as [Hd | Hd]; simpl.
    2:{ split; [intros H; contradiction |].
        intros (_ & _ & _ & _ & [H | [_ H]]); [discriminate H | contradiction]. }
    intuition.
  - intros Ha -> -> Hc ->.
    destruct (Z.ltb_spec (alloc_chrdev_region_ret k) 0); [lia |].
    destruct (Z.ltb_spec (cdev_add_ret k) 0); [lia |]. reflexivity.
Qed.

(** After any sequence of writes from the initial state 0 (the pin driven
    to 0 by [gpio_direction_output]): [led_state] is 0 or 1, it is the last
    byte "1" or "0" written (other bytes and unreadable buffers are
    ignored), the pin is at that level, and a read offers the matching
    digit followed by a zero byte and returns 2 minus what could not be
    copied.  A write returns [bufsize] whatever it did. *)
Theorem led_follows_last_command (ws : list (option ascii * Z)) (not_copied : Z) :
  let led_state := fst (writes ws 0) in
  led_state = last_command ws 0 /\
  (led_state = 0 \/ led_state = 1) /\
  pin (gpio_direction_output 0 :: snd (writes ws 0)) None = Some led_state /\
  desd_led_read not_copied led_state
  = Some (2 - not_copied, [if (led_state =? 1)%Z then "1" else "0"; zero]%char) /\
  (forall ubuf bufsize s, fst (fst (desd_led_write ubuf bufsize s)) = bufsize).
Proof.
  cbv zeta.
  destruct (writes_state ws 0 [gpio_direction_output 0]) as (H1 & H2 & H3);
    [auto | reflexivity |].
  split; [exact H1 |]. split; [exact H2 |]. split; [exact H3 |].
  split.
  - unfold desd_led_read. destruct H2 as [-> | ->]; reflexivity.
  - intros ubuf bufsize s. unfold desd_led_write.
    destruct ubuf as [b |]; simpl.
    + destruct (Ascii.eqb b "1"); [reflexivity |].
      destruct (Ascii.eqb b "0"); reflexivity.
    + reflexivity.
Qed.

End GpioFacts.

(** ** The LCD driver *)

Module LcdFacts.

Import Lcd.

(** A property checked on every byte value holds of every byte. *)
Lemma for_all_bytes (P : Z -> bool) :
  forallb P (map Z.of_nat (seq 0 256)) = true ->
  forall v, 0 <= v < 256 -> P v = true.
Proof.
  intros Hall v Hv. rewrite forallb_forall in Hall. apply Hall.
  rewrite <- (Z2Nat.id v) by lia. apply in_map. apply in_seq. lia.
Qed.

Lemma LcdWriteByte_appends send val bus :
  snd (LcdWriteByte send val bus) = bus ++ [CInt.to_uint8 val].
Proof. reflexivity. Qed.

(** [LcdWrite] appends four bytes, which depend on [rs] and [val] as
    [uint8_t] only. *)
Lemma LcdWrite_appends send rs val bus :
  LcdWrite send rs val bus
  = bus ++ LcdWrite (fun _ _ => 0) (CInt.to_uint8 rs) (CInt.to_uint8 val) [].
Proof.
  unfold LcdWrite, LcdWriteByte, CInt.to_uint8. simpl snd.
  rewrite !Z.mod_mod by lia. rewrite <- !app_assoc. reflexivity.
Qed.

Lemma LcdWrite_bytes (cmd : bool) (val : Z) :
  0 <= val < 256 ->
  exists b1 b2 b3 b4,
    LcdWrite (fun _ _ => 0) (if cmd then LCD_CMD else LCD_DATA) val [] = [b1; b2; b3; b4] /\
    frame b1 b3 = (negb cmd, val) /\ strobes b1 b2 b3 b4 = true.
Proof.
  intros Hval.
  pose (P := fun v =>
               match LcdWrite (fun _ _ => 0) (if cmd then LCD_CMD else LCD_DATA) v [] with
               | [b1; b2; b3; b4] =>
                   Bool.eqb (fst (frame b1 b3)) (negb cmd) && (snd (frame b1 b3) =? v)
                   && strobes b1 b2 b3 b4
               | _ => false
               end).
  assert (HP : P val = true).
  { apply for_all_bytes; [| exact Hval]. destruct cmd; vm_compute; reflexivity. }
  unfold P in HP.
  destruct (LcdWrite (fun _ _ => 0) (if cmd then LCD_CMD else LCD_DATA) val [])
    as [| b1 [| b2 [| b3 [| b4 [| b5 l]]]]]; try discriminate HP.
  apply andb_true_iff in HP. destruct HP as [HP Hs].
  apply andb_true_iff in HP. destruct HP as [Hrs Hv].
  apply Bool.eqb_prop in Hrs. apply Z.eqb_eq in Hv.
  exists b1, b2, b3, b4. split; [reflexivity |]. split; [| exact Hs].
  destruct (frame b1 b3) as [r v]. simpl in *. now subst.
Qed.

(** The four bytes of any [LcdWrite]. *)
Lemma LcdWrite_frame send rs val bus :
  exists b1 b2 b3 b4,
    LcdWrite send rs val bus = bus ++ [b1; b2; b3; b4] /\
    frame b1 b3 = (negb (CInt.to_uint8 rs =? LCD_CMD), CInt.to_uint8 val) /\
    strobes b1 b2 b3 b4 = true.
Proof.
  rewrite LcdWrite_appends.
  assert (Hval : 0 <= CInt.to_uint8 val < 256)
    by (unfold CInt.to_uint8; apply Z.mod_pos_bound; lia).
  assert (Hrs : LcdWrite (fun _ _ => 0) (CInt.to_uint8 rs) (CInt.to_uint8 val) []
                = LcdWrite (fun _ _ => 0)
                    (if CInt.to_uint8 rs =? LCD_CMD then LCD_CMD else LCD_DATA)
                    (CInt.to_uint8 val) []).
  { unfold LcdWrite. destruct (Z.eqb_spec (CInt.to_uint8 rs) LCD_CMD) as [-> | Hne].
    - reflexivity.
    - assert (H1 : (CInt.to_uint8 (CInt.to_uint8 rs) =? LCD_CMD) = false).
      { unfold CInt.to_uint8 in *. rewrite Z.mod_mod by lia. now apply Z.eqb_neq. }
      rewrite H1. reflexivity. }
  rewrite Hrs.
  destruct (LcdWrite_bytes (CInt.to_uint8 rs =? LCD_CMD) (CInt.to_uint8 val) Hval)
    as (b1 & b2 & b3 & b4 & -> & Hf & Hs).
  exists b1, b2, b3, b4. auto.
Qed.

(** The loop of [LcdPuts] on characters none of which is zero, followed by
    a zero. *)
Lemma LcdPuts_loop_frames send (chars : list Z) :
  forall rest bus,
    Forall (fun c => c <> 0) chars ->
    exists out,
      LcdPuts_loop send (chars ++ 0 :: rest) bus = Some (bus ++ out) /\
      frames out = map (fun c => (true, CInt.to_uint8 c)) chars /\
      length out = (4 * length chars)%nat.
Proof.
  induction chars as [| c chars IH]; intros rest bus Hnz.
  - exists []. simpl. rewrite app_nil_r. auto.
  - inversion Hnz as [| ? ? Hc Hrest]; subst.
    simpl. destruct (Z.eqb_spec c 0) as [-> | _]; [contradiction |].
    destruct (LcdWrite_frame send LCD_DATA c bus) as (b1 & b2 & b3 & b4 & -> & Hf & _).
    destruct (IH rest (bus ++ [b1; b2; b3; b4]) Hrest) as (out & -> & Hout & Hlen).
    exists ([b1; b2; b3; b4] ++ out). rewrite app_assoc.
    split; [reflexivity |]. split.
    + simpl. rewrite Hf, Hout. reflexivity.
    + simpl. rewrite Hlen. lia.
Qed.

(** [LcdWrite] sends the byte [val] as two nibbles: the display reads back
    [val] from the high nibbles of the first and third of the four bytes
    appended, with register select low exactly when [rs] is [LCD_CMD];
    the enable line is pulsed high then low for each nibble, the backlight
    bit is set and the read/write bit is clear in all four.  [rs] and
    [val] count as [uint8_t]. *)
Theorem LcdWrite_sends_byte (send : list Z -> Z -> Z) (rs val : Z) (bus : list Z) :
  exists b1 b2 b3 b4,
    LcdWrite send rs val bus = bus ++ [b1; b2; b3; b4] /\
    frame b1 b3 = (negb (CInt.to_uint8 rs =? LCD_CMD), CInt.to_uint8 val) /\
    strobes b1 b2 b3 b4 = true /\
    frames (LcdWrite send rs val []) = [(negb (CInt.to_uint8 rs =? LCD_CMD), CInt.to_uint8 val)].
Proof.
  destruct (LcdWrite_frame send rs val bus) as (b1 & b2 & b3 & b4 & H & Hf & Hs).
  exists b1, b2, b3, b4. split; [exact H |]. split; [exact Hf |]. split; [exact Hs |].
  rewrite LcdWrite_appends in H. apply app_inv_head in H.
  rewrite LcdWrite_appends, H. simpl. rewrite Hf. reflexivity.
Qed.

(** [LcdPuts] sends the command byte [line], then the characters of [str]
    up to its first zero byte as data, four bus bytes each: the display
    reads back [line] as a command and those characters as data, and
    nothing after the zero byte is sent. *)
Theorem LcdPuts_sends_string (send : list Z -> Z -> Z) (line : Z)
    (chars rest bus : list Z) :
  Forall (fun c => c <> 0) chars ->
  exists out,
    LcdPuts send line (chars ++ 0 :: rest) bus = Some (bus ++ out) /\
    frames out
    = (false, CInt.to_uint8 line) :: map (fun c => (true, CInt.to_uint8 c)) chars /\
    length out = (4 * (1 + length chars))%nat.
Proof.
  intros Hnz. unfold LcdPuts.
  destruct (LcdWrite_frame send LCD_CMD line bus) as (b1 & b2 & b3 & b4 & -> & Hf & _).
  destruct (LcdPuts_loop_frames send chars rest (bus ++ [b1; b2; b3; b4]) Hnz)
    as (out & -> & Hout & Hlen).
  exists ([b1; b2; b3; b4] ++ out). rewrite app_assoc.
  split; [reflexivity |]. split.
  - simpl. rewrite Hf, Hout. reflexivity.
  - simpl. rewrite Hlen. lia.
Qed.

Lemma LcdPuts_sends_string_witness :
  Forall (fun c => c <> 0) [72; 105] /\
  exists out,
    LcdPuts (fun _ _ => 1) LCD_LINE1 ([72; 105] ++ 0 :: [33]) [] = Some ([] ++ out) /\
    frames out
    = (false, CInt.to_uint8 LCD_LINE1)
      :: map (fun c => (true, CInt.to_uint8 c)) [72; 105] /\
    length out = (4 * (1 + length [72; 105]))%nat.
Proof.
  assert (H : Forall (fun c => c <> 0) [72; 105])
    by (repeat constructor; discriminate).
  split; [exact H |].
  exact (LcdPuts_sends_string (fun _ _ => 1) LCD_LINE1 [72; 105] [33] [] H).
Defined.

(** [LcdInit] goes on after its first byte (0x34) only when
    [i2c_master_send] returned exactly 0 for it: then it sends the 24 other
    bytes of the sequence, which end with the commands 0x08, 0x01, 0x06
    and 0x0C, and returns 0.  On any other return value, a positive byte
    count included, it returns -1 with that one byte sent.  The probe
    function returns the same value. *)
Theorem LcdInit_first_reply (send : list Z -> Z -> Z) (bus : list Z) :
  LcdInit send bus
  = (if send bus 0x34 =? 0
     then (0, bus ++ [0x34; 0x30; 0x34; 0x30; 0x34; 0x30; 0x24; 0x20; 0x28;
                      0x0C; 0x08; 0x8C; 0x88;  0x0C; 0x08; 0x1C; 0x18;
                      0x0C; 0x08; 0x6C; 0x68;  0x0C; 0x08; 0xCC; 0xC8])
     else (-1, bus ++ [0x34])) /\
  desd_lcd_probe send bus = LcdInit send bus /\
  frames [0x0C; 0x08; 0x8C; 0x88;  0x0C; 0x08; 0x1C; 0x18;
          0x0C; 0x08; 0x6C; 0x68;  0x0C; 0x08; 0xCC; 0xC8]
  = [(false, LCD_DISP_CTRL); (false, LCD_CLEAR); (false, LCD_ENTRY_MODE);
     (false, LCD_DISP_ON)].
Proof.
  split; [| split; [| reflexivity]].
  - unfold LcdInit.
    change (LcdWriteByte send (Z.lor LCD_FN_SET_8BIT (BV LCD_EN)) bus)
      with (send bus 0x34, bus ++ [0x34]).
    cbv beta iota zeta.
    destruct (Z.eqb_spec (send bus 52) 0) as [Hz | Hne]; [| reflexivity].
    simpl negb. cbv iota. rewrite Hz.
    rewrite (LcdWrite_appends send LCD_CMD LCD_DISP_ON),
      (LcdWrite_appends send LCD_CMD LCD_ENTRY_MODE),
      (LcdWrite_appends send LCD_CMD LCD_CLEAR),
      (LcdWrite_appends send LCD_CMD LCD_DISP_CTRL).
    rewrite !LcdWriteByte_appends, <- !app_assoc.
    do 2 f_equal.
  - unfold desd_lcd_probe. destruct (LcdInit send bus) as [ret bus'].
    destruct (negb (ret =? 0)); reflexivity.
Qed.

End LcdFacts.
